(** * Flow export (mitmproxy/addons/export.py)

    A shallow embedding of the export addon: the sanitisers
    [cleanup_request] and [cleanup_response], the formatters
    [curl_command], [httpie_command], [raw_request], [raw_response] and
    [raw], the [formats] table and the two commands [file] and [clip] of
    [Export].

    Python objects live in a store: a flow refers to its request and its
    response by reference, [copy()] allocates a new object, and [decode] and
    the header removals update an object in place.  Exceptions are an
    explicit outcome. *)

From Stdlib Require Import Ascii String List Bool Arith Lia.
From Stdlib.Strings Require Import Byte.
From stdpp Require Import base option list strings pretty sorting gmap.

Local Open Scope string_scope.
Local Open Scope list_scope.
Local Open Scope nat_scope.

(** ** Python values *)

(** [bytes] objects. *)
Definition bytes := list byte.

(** Truthiness of [request.content], which is [None] or a [bytes]. *)
Definition truthy (content : option bytes) : bool :=
  match content with
  | None => false
  | Some [] => false
  | Some (_ :: _) => true
  end.

(** What a formatter returns: [curl_command] and [httpie_command] a [str],
    the raw formatters a [bytes]; [file] tells them apart with
    [isinstance(v, bytes)]. *)
Inductive Output :=
  | Str (s : string)
  | Bytes (b : bytes).

(** ASCII lower-casing, as [bytes.lower()] does it. *)
Definition lower_ascii (c : ascii) : ascii :=
  let n := nat_of_ascii c in
  if ((65 <=? n) && (n <=? 90))%nat then ascii_of_nat (n + 32)%nat else c.

Fixpoint lower (s : string) : string :=
  match s with
  | EmptyString => EmptyString
  | String c s' => String (lower_ascii c) (lower s')
  end.

(** ** Headers *)

(** Modelled from the spec: the header collection
    (mitmproxy.net.http.headers.Headers, not under src/).  An ordered
    multimap: a list of (name, value) entries that keeps insertion order and
    duplicates, with names compared case-insensitively by every lookup.
    [get] folds the values of a repeated name into one string, [delitem]
    removes every entry of the name, [items] is [items(multi=True)]. *)
Module Headers.

Definition t := list (string * string).

Definition kconv (key : string) : string := lower key.

Definition matches (key : string) (field : string * string) : bool :=
  String.eqb (kconv (fst field)) (kconv key).

(** The entries of a name, in order, with the names as stored. *)
Definition entries (key : string) (h : t) : t :=
  List.filter (matches key) h.

Definition get_all (key : string) (h : t) : list string :=
  List.map snd (entries key h).

Definition reduce_values (values : list string) : string :=
  String.concat ", " values.

Definition get (key : string) (h : t) : option string :=
  match get_all key h with
  | [] => None
  | values => Some (reduce_values values)
  end.

Definition contains (key : string) (h : t) : bool :=
  existsb (matches key) h.

Definition delitem (key : string) (h : t) : t :=
  List.filter (fun field => negb (matches key field)) h.

Definition items (h : t) : list (string * string) := h.

End Headers.

(** ** Messages and flows *)

(** Modelled from the spec: the request of a flow (mitmproxy.http.HTTPRequest,
    not under src/): method, target URL, headers and an optional body. *)
Record Request := mkRequest {
  method : string;
  url : string;
  headers : Headers.t;
  content : option bytes
}.

(** Modelled from the spec: the response of a flow
    (mitmproxy.http.HTTPResponse, not under src/): a status line, headers
    and an optional body. *)
Record Response := mkResponse {
  status_code : nat;
  reason : string;
  resp_headers : Headers.t;
  resp_content : option bytes
}.

(** References into the store. *)
Definition ref := nat.

(** A flow: [f.request] and [f.response]; [None] stands for an attribute
    that is missing or [None] (a message object itself is always truthy). *)
Record Flow := mkFlow {
  request : option ref;
  response : option ref
}.

(** [hasattr(f, "request") and f.request], as a truth value. *)
Definition present (message : option ref) : bool :=
  match message with
  | Some _ => true
  | None => false
  end.

(** ** Exceptions *)

(** The exceptions of the addon and of what it calls.
    [DanglingReference] is the model's own: a reference to no object of the
    store, which no Python program can hold. *)
Inductive exn :=
  | CommandError (msg : string)
  | KeyError (key : string)
  | IOError (msg : string)
  | PyperclipException (msg : string)
  | UnicodeEncodeError
  | DanglingReference.

Inductive outcome (A : Type) :=
  | Ok (a : A)
  | Raise (e : exn).
Arguments Ok {A} a.
Arguments Raise {A} e.

(** The error names of the specification are the [CommandError]s of the
    code, told apart by their message. *)
Definition NoRequestError : exn :=
  CommandError "Can't export flow with no request.".
Definition NoResponseError : exn :=
  CommandError "Can't export flow with no response.".
Definition NoContentError : exn :=
  CommandError "Can't export flow with no request or response.".
Definition UnknownFormatError (fmt : string) : exn :=
  CommandError ("No such export format: " +:+ fmt).

(** ** What the addon imports *)

(** The collaborators of export.py that are not under src/, taken as
    parameters:
    - [decode_lenient]: [Message.decode(strict=False)], as a function from
      the headers and body of a message to its headers and body afterwards;
    - [bytes_to_escaped_str data escape_single_quotes]:
      [strutils.bytes_to_escaped_str];
    - [always_str]: [strutils.always_str] on a [bytes];
    - [encode_utf8]: [str.encode("utf-8")], [None] for [UnicodeEncodeError];
    - [assemble_request], [assemble_response]:
      [mitmproxy.net.http.http1.assemble];
    - the world outside: [open_wb], [fp_write] and [fp_close] are
      [open(path, "wb")], [fp.write] and the close at the end of the [with]
      block, [pyperclip_copy] is [pyperclip.copy]; each returns [Some msg]
      when it raises, with [msg] the [str(e)] of the exception. *)
Class Externals := {
  World : Type;
  decode_lenient : Headers.t -> option bytes -> Headers.t * option bytes;
  bytes_to_escaped_str : bytes -> bool -> string;
  always_str : bytes -> string;
  encode_utf8 : string -> option bytes;
  assemble_request : Request -> bytes;
  assemble_response : Response -> bytes;
  open_wb : string -> World -> option string * World;
  fp_write : string -> bytes -> World -> option string * World;
  fp_close : string -> World -> option string * World;
  pyperclip_copy : string -> World -> option string * World
}.

Section Addon.

Context `{E : Externals}.

(** ** The store and the command monad *)

Record State := mkState {
  requests : list Request;
  responses : list Response;
  log : list string;
  world : World
}.

Definition M (A : Type) : Type := State -> outcome A * State.

Definition ret {A} (a : A) : M A := fun s => (Ok a, s).

Definition raise {A} (e : exn) : M A := fun s => (Raise e, s).

Definition bind {A B} (c : M A) (k : A -> M B) : M B :=
  fun s =>
    match c s with
    | (Ok a, s') => k a s'
    | (Raise e, s') => (Raise e, s')
    end.

(** [try: c  except <the exceptions h is defined on> as e: h e]. *)
Definition try_except {A} (c : M A) (h : exn -> option (M A)) : M A :=
  fun s =>
    match c s with
    | (Ok a, s') => (Ok a, s')
    | (Raise e, s') =>
        match h e with
        | Some handler => handler s'
        | None => (Raise e, s')
        end
    end.

Notation "'let*' x := c 'in' k" := (bind c (fun x => k))
  (at level 10, x name, c at level 200, k at level 200).

Definition set_requests (rs : list Request) (s : State) : State :=
  mkState rs (responses s) (log s) (world s).

Definition set_responses (ps : list Response) (s : State) : State :=
  mkState (requests s) ps (log s) (world s).

Definition set_log (l : list string) (s : State) : State :=
  mkState (requests s) (responses s) l (world s).

Definition set_world (w : World) (s : State) : State :=
  mkState (requests s) (responses s) (log s) w.

(** Reading and updating an object through a reference. *)
Definition get_request (l : ref) : M Request :=
  fun s =>
    match requests s !! l with
    | Some r => (Ok r, s)
    | None => (Raise DanglingReference, s)
    end.

Definition put_request (l : ref) (r : Request) : M unit :=
  fun s =>
    if l <? length (requests s)
    then (Ok tt, set_requests (<[l := r]> (requests s)) s)
    else (Raise DanglingReference, s).

Definition new_request (r : Request) : M ref :=
  fun s => (Ok (length (requests s)), set_requests (requests s ++ [r]) s).

Definition get_response (l : ref) : M Response :=
  fun s =>
    match responses s !! l with
    | Some p => (Ok p, s)
    | None => (Raise DanglingReference, s)
    end.

Definition put_response (l : ref) (p : Response) : M unit :=
  fun s =>
    if l <? length (responses s)
    then (Ok tt, set_responses (<[l := p]> (responses s)) s)
    else (Raise DanglingReference, s).

Definition new_response (p : Response) : M ref :=
  fun s => (Ok (length (responses s)), set_responses (responses s ++ [p]) s).

(** ** Methods of the message objects *)

(** Modelled from the spec: [copy()] of a message (mitmproxy.http, not under
    src/): a structurally independent copy, a new object with the same
    state. *)
Definition request_copy (l : ref) : M ref :=
  let* r := get_request l in new_request r.

Definition response_copy (l : ref) : M ref :=
  let* p := get_response l in new_response p.

(** [decode(strict=False)]: updates the headers and the body of the object
    it is called on. *)
Definition request_decode (l : ref) : M unit :=
  let* r := get_request l in
  let hc := decode_lenient (headers r) (content r) in
  put_request l (mkRequest (method r) (url r) (fst hc) (snd hc)).

Definition response_decode (l : ref) : M unit :=
  let* p := get_response l in
  let hc := decode_lenient (resp_headers p) (resp_content p) in
  put_response l (mkResponse (status_code p) (reason p) (fst hc) (snd hc)).

Definition set_headers (h : Headers.t) (r : Request) : Request :=
  mkRequest (method r) (url r) h (content r).

(** [request.headers.pop(key)]: [KeyError] when the name is absent. *)
Definition headers_pop (l : ref) (key : string) : M unit :=
  let* r := get_request l in
  if Headers.contains key (headers r)
  then put_request l (set_headers (Headers.delitem key (headers r)) r)
  else raise (KeyError key).

(** [request.headers.pop(key, None)]. *)
Definition headers_pop_default (l : ref) (key : string) : M unit :=
  let* r := get_request l in
  if Headers.contains key (headers r)
  then put_request l (set_headers (Headers.delitem key (headers r)) r)
  else ret tt.

(** ** export.py *)

Definition option_eqb (o : option string) (s : string) : bool :=
  match o with
  | Some v => String.eqb v s
  | None => false
  end.

Definition cleanup_request (f : Flow) : M ref :=
  match request f with
  | None => raise (CommandError "Can't export flow with no request.")
  | Some l =>
      let* request := request_copy l in
      let* _ := request_decode request in
      let* r := get_request request in
      let* _ :=
        if String.eqb (method r) "GET"
           && option_eqb (Headers.get "content-length" (headers r)) "0"
        then headers_pop request "content-length"
        else ret tt in
      let* _ := headers_pop_default request ":authority" in
      ret request
  end.

Definition cleanup_response (f : Flow) : M ref :=
  match response f with
  | None => raise (CommandError "Can't export flow with no response.")
  | Some l =>
      let* response := response_copy l in
      let* _ := response_decode response in
      ret response
  end.

Definition curl_command (f : Flow) : M string :=
  let data := "curl " in
  let* request := cleanup_request f in
  let* r := get_request request in
  let data :=
    fold_left
      (fun data kv =>
         let data :=
           data +:+ (if String.eqb (fst kv) "accept-encoding"
                     then "--compressed " else EmptyString) in
         data +:+ "-H '" +:+ fst kv +:+ ":" +:+ snd kv +:+ "' ")
      (Headers.items (headers r)) data in
  let data :=
    if negb (String.eqb (method r) "GET")
    then data +:+ "-X " +:+ method r +:+ " "
    else data in
  let data := data +:+ "'" +:+ url r +:+ "'" in
  let data :=
    if truthy (content r)
    then data +:+ " --data-binary '"
              +:+ bytes_to_escaped_str (default [] (content r)) true +:+ "'"
    else data in
  ret data.

Definition httpie_command (f : Flow) : M string :=
  let* request := cleanup_request f in
  let* r := get_request request in
  let data := "http " +:+ method r +:+ " " +:+ url r in
  let data :=
    fold_left
      (fun data kv => data +:+ " '" +:+ fst kv +:+ ":" +:+ snd kv +:+ "'")
      (Headers.items (headers r)) data in
  let data :=
    if truthy (content r)
    then data +:+ " <<< '"
              +:+ bytes_to_escaped_str (default [] (content r)) true +:+ "'"
    else data in
  ret data.

Definition raw_request (f : Flow) : M bytes :=
  let* request := cleanup_request f in
  let* r := get_request request in
  ret (assemble_request r).

Definition raw_response (f : Flow) : M bytes :=
  let* response := cleanup_response f in
  let* p := get_response response in
  ret (assemble_response p).

(** The default of [raw]'s [separator]: CR LF CR LF. *)
Definition default_separator : bytes := [x0d; x0a; x0d; x0a]%byte.

Definition raw (f : Flow) (separator : bytes) : M bytes :=
  let request_present := present (request f) in
  let response_present := present (response f) in
  if negb (request_present || response_present)
  then raise (CommandError "Can't export flow with no request or response.")
  else if request_present && response_present
  then
    let* a := raw_request f in
    let* b := raw_response f in
    ret (a ++ separator ++ b)
  else if negb request_present
  then raw_response f
  else raw_request f.

(** The values of [formats] return a [str] or a [bytes]. *)
Definition as_str (c : M string) : M Output :=
  let* s := c in ret (Str s).

Definition as_bytes (c : M bytes) : M Output :=
  let* b := c in ret (Bytes b).

Definition formats : gmap string (Flow -> M Output) :=
  list_to_map
    [ ("curl", fun f => as_str (curl_command f));
      ("httpie", fun f => as_str (httpie_command f));
      ("raw", fun f => as_bytes (raw f default_separator));
      ("raw_request", fun f => as_bytes (raw_request f));
      ("raw_response", fun f => as_bytes (raw_response f)) ].

(** [Export.formats], the command export.formats:
    [list(sorted(formats.keys()))]. *)
Definition formats_command : M (list string) :=
  ret (merge_sort String.le (List.map fst (map_to_list formats))).

(** ** The sinks *)

(** [ctx.log.error]. *)
Definition log_error (msg : string) : M unit :=
  fun s => (Ok tt, set_log (log s ++ [msg]) s).

(** An operation of the world outside, raising [mk msg] when it fails. *)
Definition world_op (op : World -> option string * World)
    (mk : string -> exn) : M unit :=
  fun s =>
    match op (world s) with
    | (None, w) => (Ok tt, set_world w s)
    | (Some msg, w) => (Raise (mk msg), set_world w s)
    end.

(** [with open(path, "wb") as fp: body]: the file is closed on every way
    out of the body, and a failing close takes over from the body's own
    exception. *)
Definition with_open_wb (path : string) (body : M unit) : M unit :=
  let* _ := world_op (open_wb path) IOError in
  fun s =>
    match body s with
    | (Ok _, s') => world_op (fp_close path) IOError s'
    | (Raise e, s') =>
        match world_op (fp_close path) IOError s' with
        | (Ok _, s'') => (Raise e, s'')
        | (Raise e', s'') => (Raise e', s'')
        end
    end.

(** The body of the [try] in [file]. *)
Definition write_file (path : string) (v : Output) : M unit :=
  with_open_wb path
    match v with
    | Bytes b => world_op (fp_write path b) IOError
    | Str s =>
        match encode_utf8 s with
        | Some b => world_op (fp_write path b) IOError
        | None => raise UnicodeEncodeError
        end
    end.

Definition file (fmt : string) (f : Flow) (path : string) : M unit :=
  match formats !! fmt with
  | None => raise (CommandError ("No such export format: " +:+ fmt))
  | Some func =>
      let* v := func f in
      try_except (write_file path v)
        (fun e =>
           match e with
           | IOError msg => Some (log_error msg)
           | _ => None
           end)
  end.

(** [strutils.always_str] on what a formatter returned. *)
Definition always_str_of (v : Output) : string :=
  match v with
  | Str s => s
  | Bytes b => always_str b
  end.

Definition clip (fmt : string) (f : Flow) : M unit :=
  match formats !! fmt with
  | None => raise (CommandError ("No such export format: " +:+ fmt))
  | Some func =>
      let* out := func f in
      let v := always_str_of out in
      try_except (world_op (pyperclip_copy v) PyperclipException)
        (fun e =>
           match e with
           | PyperclipException msg => Some (log_error msg)
           | _ => None
           end)
  end.

(** ** The sanitised copies as values *)

(** The state of the copy that [cleanup_request] returns, in terms of the
    request it copied: the decode pass, then the two header removals. *)
Definition decoded_request (r : Request) : Request :=
  let hc := decode_lenient (headers r) (content r) in
  mkRequest (method r) (url r) (fst hc) (snd hc).

Definition sanitized_request (r : Request) : Request :=
  let d := decoded_request r in
  let h :=
    if String.eqb (method d) "GET"
       && option_eqb (Headers.get "content-length" (headers d)) "0"
    then Headers.delitem "content-length" (headers d)
    else headers d in
  set_headers (Headers.delitem ":authority" h) d.

(** The state of the copy that [cleanup_response] returns. *)
Definition decoded_response (p : Response) : Response :=
  let hc := decode_lenient (resp_headers p) (resp_content p) in
  mkResponse (status_code p) (reason p) (fst hc) (snd hc).

End Addon.

Arguments State : clear implicits.
Arguments M : clear implicits.

(** ** A shell's reading of a command line *)

(** The words a POSIX shell makes of a simple command line: blanks
    separate words; between single quotes every character stands for
    itself and a single quote cannot occur; between double quotes a
    backslash keeps its meaning before [$], a backquote, a double quote, a
    backslash and a newline; outside quotes a backslash quotes the next
    character, and a backslash and a newline are dropped together.
    [None] when a quote is left open.  Expansions and operators are not
    read: a command line that has them outside single quotes is outside
    this reading. *)
Inductive quoting := Unquoted | Single | Double.

Definition is_blank (c : ascii) : bool :=
  (Ascii.eqb c " " || Ascii.eqb c "009" || Ascii.eqb c "010")%bool.

Definition flush (word : option string) (words : list string) : list string :=
  match word with
  | Some w => words ++ [w]
  | None => words
  end.

Definition push (c : ascii) (word : option string) : option string :=
  Some (default EmptyString word +:+ String c EmptyString).

Fixpoint sh_scan (q : quoting) (word : option string) (words : list string)
    (s : string) : option (list string) :=
  match s with
  | EmptyString =>
      match q with
      | Unquoted => Some (flush word words)
      | _ => None
      end
  | String c rest =>
      match q with
      | Unquoted =>
          if is_blank c then sh_scan Unquoted None (flush word words) rest
          else if Ascii.eqb c "'" then sh_scan Single (Some (default EmptyString word)) words rest
          else if Ascii.eqb c "034" then sh_scan Double (Some (default EmptyString word)) words rest
          else if Ascii.eqb c "092" then
            match rest with
            | String d rest' =>
                if Ascii.eqb d "010" then sh_scan Unquoted word words rest'
                else sh_scan Unquoted (push d word) words rest'
            | EmptyString => Some (flush (push c word) words)
            end
          else sh_scan Unquoted (push c word) words rest
      | Single =>
          if Ascii.eqb c "'" then sh_scan Unquoted word words rest
          else sh_scan Single (push c word) words rest
      | Double =>
          if Ascii.eqb c "034" then sh_scan Unquoted word words rest
          else if Ascii.eqb c "092" then
            match rest with
            | String d rest' =>
                if Ascii.eqb d "010" then sh_scan Double word words rest'
                else if (Ascii.eqb d "$" || Ascii.eqb d "`" || Ascii.eqb d "034"
                         || Ascii.eqb d "092")%bool
                then sh_scan Double (push d word) words rest'
                else sh_scan Double (push d (push c word)) words rest'
            | EmptyString => None
            end
          else sh_scan Double (push c word) words rest
      end
  end.

Definition sh_words (line : string) : option (list string) :=
  sh_scan Unquoted None [] line.

(** ** Messages and flows to run the model on *)

Module Examples.

(** GET http://example.com/ with Host and Accept-Encoding, no body. *)
Definition example_request : Request :=
  mkRequest "GET" "http://example.com/"
    [("Host", "example.com"); ("Accept-Encoding", "gzip")] None.

Definition example_response : Response :=
  mkResponse 200 "OK" [("Content-Type", "text/plain")]
    (Some (list_byte_of_string "hello")).

(** The same request with the header name in lower case. *)
Definition lowercase_request : Request :=
  mkRequest "GET" "http://example.com/"
    [("Host", "example.com"); ("accept-encoding", "gzip")] None.

(** A header value with a single quote in it. *)
Definition quoted_request : Request :=
  mkRequest "GET" "http://example.com/" [("X-Note", "it's")] None.

(** A GET request with the authority pseudo-header and Content-Length 0,
    and a POST request with an empty body. *)
Definition authority_request : Request :=
  mkRequest "GET" "http://example.com/"
    [(":authority", "example.com"); ("Content-Length", "0")] None.

(** A GET request that states Content-Length: 0 twice, with no body. *)
Definition repeated_length_request : Request :=
  mkRequest "GET" "http://example.com/"
    [("Content-Length", "0"); ("Content-Length", "0")] None.

Definition empty_post : Request :=
  mkRequest "POST" "http://example.com/form" [("Host", "example.com")]
    (Some []).

Definition authority_response : Response :=
  mkResponse 200 "OK" [(":authority", "example.com")] None.

(** A POST request with a body and a repeated header. *)
(** A header value with a byte above 127 in it. *)
Definition binary_header_request : Request :=
  mkRequest "GET" "http://example.com/"
    [("X-Bin", String "255" EmptyString)] None.

Definition post_with_body : Request :=
  mkRequest "POST" "http://example.com/form"
    [("Cookie", "a=1"); ("Cookie", "b=2")]
    (Some (list_byte_of_string "x=1")).

Definition request_only : Flow := mkFlow (Some 0) None.
Definition both_sides : Flow := mkFlow (Some 0) (Some 0).
Definition response_only : Flow := mkFlow None (Some 0).
Definition neither_side : Flow := mkFlow None None.

(** A double quote, and a command line that closes, quotes and reopens
    around a single quote. *)
Definition dq : string := String "034" EmptyString.

Definition neutralised_line : string :=
  "curl -H 'X-Note:it'" +:+ dq +:+ "'" +:+ dq +:+ "'s' 'http://example.com/'".

End Examples.

(** ** An instance to run the model on *)

Module Demo.

(** Modelled from the spec: [Message.decode(strict=False)]
    (mitmproxy.net.http.message, not under src/) where no transport-level
    encoding can be reversed: content is passed through as-is. *)
Definition decode_lenient (h : Headers.t) (body : option bytes)
    : Headers.t * option bytes := (h, body).

Definition hex_digit (n : nat) : ascii :=
  match n with
  | 0 => "0" | 1 => "1" | 2 => "2" | 3 => "3" | 4 => "4" | 5 => "5"
  | 6 => "6" | 7 => "7" | 8 => "8" | 9 => "9" | 10 => "a" | 11 => "b"
  | 12 => "c" | 13 => "d" | 14 => "e" | _ => "f"
  end%char.

Definition escape_byte (escape_single_quotes : bool) (b : byte) : string :=
  let c := ascii_of_byte b in
  let n := nat_of_ascii c in
  if Ascii.eqb c "'" then
    if escape_single_quotes then "'" +:+ String "034" "'" +:+ String "034" "'"
    else "'"
  else if Ascii.eqb c "092" then "\\"
  else if (32 <=? n) && (n <? 127) then String c EmptyString
  else "\x" +:+ String (hex_digit (n / 16))
                  (String (hex_digit (n mod 16)) EmptyString).

(** Modelled from the spec: [strutils.bytes_to_escaped_str]
    (mitmproxy.utils.strutils, not under src/): non-printable bytes are
    rendered as escape sequences, and a single quote is closed, quoted and
    reopened when [escape_single_quotes] is set. *)
Definition bytes_to_escaped_str (data : bytes) (escape_single_quotes : bool)
    : string :=
  String.concat EmptyString (List.map (escape_byte escape_single_quotes) data).

(** Modelled from the spec: [strutils.always_str] (not under src/) on a
    [bytes]: its text, one character for each byte. *)
Definition always_str (b : bytes) : string := string_of_list_byte b.

Definition encode_utf8 (s : string) : option bytes :=
  Some (list_byte_of_string s).

Definition crlf : bytes := [x0d; x0a]%byte.

Definition header_lines (h : Headers.t) : bytes :=
  List.concat
    (List.map
       (fun kv => list_byte_of_string (fst kv +:+ ": " +:+ snd kv) ++ crlf)
       h).

(** Modelled from the spec: [assemble.assemble_request]
    (mitmproxy.net.http.http1.assemble, not under src/): the start line,
    each header as [Name: value] and CR LF, in order, a blank line, the
    body verbatim. *)
Definition assemble_request (r : Request) : bytes :=
  list_byte_of_string (method r +:+ " " +:+ url r +:+ " HTTP/1.1") ++ crlf
  ++ header_lines (headers r) ++ crlf ++ default [] (content r).

(** Modelled from the spec: [assemble.assemble_response], likewise, with
    the status line first. *)
Definition assemble_response (p : Response) : bytes :=
  list_byte_of_string
    ("HTTP/1.1 " +:+ pretty (status_code p) +:+ " " +:+ reason p) ++ crlf
  ++ header_lines (resp_headers p) ++ crlf ++ default [] (resp_content p).

(** The world outside: the files written so far, the paths that cannot be
    opened for writing, and the clipboard, [None] when the system has no
    copy mechanism. *)
Record World := mkWorld {
  files : list (string * bytes);
  unwritable : list string;
  clipboard : option string
}.

Definition store (path : string) (data : bytes) (w : World) : World :=
  mkWorld
    ((path, data)
       :: List.filter (fun e => negb (String.eqb (fst e) path)) (files w))
    (unwritable w) (clipboard w).

Definition open_wb (path : string) (w : World) : option string * World :=
  if existsb (String.eqb path) (unwritable w)
  then (Some ("[Errno 13] Permission denied: '" +:+ path +:+ "'"), w)
  else (None, store path [] w).

Definition fp_write (path : string) (data : bytes) (w : World)
    : option string * World := (None, store path data w).

Definition fp_close (path : string) (w : World) : option string * World :=
  (None, w).

Definition pyperclip_copy (text : string) (w : World)
    : option string * World :=
  match clipboard w with
  | Some _ => (None, mkWorld (files w) (unwritable w) (Some text))
  | None =>
      (Some "Pyperclip could not find a copy/paste mechanism for your system.",
       w)
  end.

#[export] Instance externals : Externals :=
  Build_Externals World decode_lenient bytes_to_escaped_str always_str
    encode_utf8 assemble_request assemble_response
    open_wb fp_write fp_close pyperclip_copy.

Definition empty_world : World := mkWorld [] ["/proc/version"] (Some EmptyString).

Definition no_clipboard : World := mkWorld [] [] None.

Definition state_of (rs : list Request) (ps : list Response) (w : World)
    : State externals := mkState rs ps [] w.

(** Modelled from the spec: [str.encode("utf-8")] where a text holds bytes
    read from the wire: a byte above 127 stands for the lone surrogate it
    was decoded to, which cannot be encoded. *)
Definition encode_ascii (s : string) : option bytes :=
  if forallb (fun b => nat_of_ascii (ascii_of_byte b) <? 128)
       (list_byte_of_string s)
  then Some (list_byte_of_string s)
  else None.

(** The same instance with this encoder. *)
Definition strict : Externals :=
  Build_Externals World decode_lenient bytes_to_escaped_str always_str
    encode_ascii assemble_request assemble_response
    open_wb fp_write fp_close pyperclip_copy.

End Demo.

(** ** Words for the statements below *)

Definition flatten (parts : list string) : string :=
  fold_right String.append EmptyString parts.

(** What [curl_command] writes for one header, and [httpie_command]. *)
Definition curl_header_flag (kv : string * string) : string :=
  (if String.eqb (fst kv) "accept-encoding" then "--compressed "
   else EmptyString)
  +:+ "-H '" +:+ fst kv +:+ ":" +:+ snd kv +:+ "' ".

Definition httpie_header_item (kv : string * string) : string :=
  " '" +:+ fst kv +:+ ":" +:+ snd kv +:+ "'".

(** No single quote occurs in the text. *)
Fixpoint quote_free (s : string) : bool :=
  match s with
  | EmptyString => true
  | String c rest => negb (Ascii.eqb c "'") && quote_free rest
  end.

(** No entry of the header collection is named [key], in any case. *)
Definition no_header (key : string) (h : Headers.t) : Prop :=
  forall name value, In (name, value) h -> lower name <> lower key.

(** The names under which [formats] is defined. *)
Definition format_names : list string :=
  ["curl"; "httpie"; "raw"; "raw_request"; "raw_response"].

(** The state [s'] extends the state [s]: the objects of [s] are there,
    unchanged, new ones may follow them, and the log and the world outside
    are those of [s]. *)
Definition extends {E : Externals} (s s' : State E) : Prop :=
  requests s `prefix_of` requests s'
  /\ responses s `prefix_of` responses s'
  /\ log s' = log s
  /\ world s' = world s.

(** A command that, from every state, ends in an extension of it. *)
Definition frame_safe {E : Externals} {A : Type} (c : M E A) : Prop :=
  forall s, extends s (snd (c s)).

(** The header entries that [cleanup_request] keeps: all but those named
    ":authority" and, when [drop_content_length] is set, those named
    "content-length". *)
Definition kept_by_cleanup (drop_content_length : bool)
    (field : string * string) : bool :=
  negb (Headers.matches ":authority" field)
  && negb (drop_content_length && Headers.matches "content-length" field).

(** The bytes that [file] writes for what a formatter returned: a [bytes]
    as it is, a [str] encoded as UTF-8. *)
Definition payload {E : Externals} (v : Output) : option bytes :=
  match v with
  | Bytes b => Some b
  | Str text => encode_utf8 text
  end.

(** * Properties *)

(** ** Headers *)

Section HeaderFacts.

Implicit Types (h : Headers.t) (key : string).

Lemma delitem_absent key h :
  Headers.contains key h = false -> Headers.delitem key h = h.
Proof.
  unfold Headers.contains, Headers.delitem.
  induction h as [|field h IH]; simpl; [done|].
  intros [Hf Hh]%orb_false_iff. rewrite Hf. simpl. by rewrite IH.
Qed.

Lemma entries_delitem_same key h :
  Headers.entries key (Headers.delitem key h) = [].
Proof.
  unfold Headers.entries, Headers.delitem.
  induction h as [|field h IH]; simpl; [done|].
  destruct (Headers.matches key field) eqn:Hm; simpl; [done|].
  by rewrite Hm.
Qed.

Lemma entries_delitem_other key key' h :
  Headers.kconv key <> Headers.kconv key' ->
  Headers.entries key (Headers.delitem key' h) = Headers.entries key h.
Proof.
  intros Hne. unfold Headers.entries, Headers.delitem.
  induction h as [|field h IH]; simpl; [done|].
  destruct (Headers.matches key' field) eqn:Hm'; simpl.
  - destruct (Headers.matches key field) eqn:Hm; [|done].
    unfold Headers.matches in Hm, Hm'.
    apply String.eqb_eq in Hm, Hm'. congruence.
  - by rewrite IH.
Qed.

Lemma get_all_delitem_same key h :
  Headers.get_all key (Headers.delitem key h) = [].
Proof. unfold Headers.get_all. by rewrite entries_delitem_same. Qed.

Lemma contains_entries key h :
  Headers.contains key h = false <-> Headers.entries key h = [].
Proof.
  unfold Headers.contains, Headers.entries.
  induction h as [|field h IH]; simpl; [done|].
  destruct (Headers.matches key field); simpl; [|done].
  split; discriminate.
Qed.

Lemma get_contains key h v :
  Headers.get key h = Some v -> Headers.contains key h = true.
Proof.
  unfold Headers.get, Headers.get_all. intros Hget.
  destruct (Headers.contains key h) eqn:Hc; [done|].
  apply contains_entries in Hc. by rewrite Hc in Hget.
Qed.

(** No entry of the name is left, whatever the case it is spelt in. *)
Lemma entries_nil_no_field key h :
  Headers.entries key h = [] -> no_header key h.
Proof.
  unfold Headers.entries. intros Hnil name value Hin Heq.
  assert (In (name, value) (List.filter (Headers.matches key) h)) as Hf.
  { apply filter_In. split; [done|].
    unfold Headers.matches, Headers.kconv. simpl. by apply String.eqb_eq. }
  by rewrite Hnil in Hf.
Qed.

End HeaderFacts.

(** ** Running the sanitisers *)

Section Runs.

Context `{E : Externals}.

Implicit Types (rs : list Request) (ps : list Response) (lg : list string).

Lemma bind_ok {A B} (c : M E A) (k : A -> M E B) s a s' :
  c s = (Ok a, s') -> bind c k s = k a s'.
Proof. unfold bind. by intros ->. Qed.

Lemma bind_raise {A B} (c : M E A) (k : A -> M E B) s e s' :
  c s = (Raise e, s') -> bind c k s = (Raise e, s').
Proof. unfold bind. by intros ->. Qed.

Lemma lookup_last {A} (l : list A) (x : A) : (l ++ [x]) !! length l = Some x.
Proof. by apply list_lookup_middle. Qed.

Lemma insert_last {A} (l : list A) (x y : A) :
  <[length l := y]> (l ++ [x]) = l ++ [y].
Proof.
  rewrite insert_app_r_alt by lia. by rewrite Nat.sub_diag.
Qed.

Lemma get_request_last rs r ps lg w :
  get_request (length rs) (mkState (rs ++ [r]) ps lg w)
  = (Ok r, mkState (rs ++ [r]) ps lg w).
Proof. unfold get_request. simpl. by rewrite lookup_last. Qed.

Lemma put_request_last rs r r' ps lg w :
  put_request (length rs) r' (mkState (rs ++ [r]) ps lg w)
  = (Ok tt, mkState (rs ++ [r']) ps lg w).
Proof.
  unfold put_request, set_requests. simpl.
  rewrite length_app. simpl.
  destruct (Nat.ltb_spec (length rs) (length rs + 1)); [|lia].
  by rewrite insert_last.
Qed.

Lemma get_response_last rs p ps lg w :
  get_response (length ps) (mkState rs (ps ++ [p]) lg w)
  = (Ok p, mkState rs (ps ++ [p]) lg w).
Proof. unfold get_response. simpl. by rewrite lookup_last. Qed.

Lemma put_response_last rs p p' ps lg w :
  put_response (length ps) p' (mkState rs (ps ++ [p]) lg w)
  = (Ok tt, mkState rs (ps ++ [p']) lg w).
Proof.
  unfold put_response, set_responses. simpl.
  rewrite length_app. simpl.
  destruct (Nat.ltb_spec (length ps) (length ps + 1)); [|lia].
  by rewrite insert_last.
Qed.

Lemma request_copy_run l r rs ps lg w :
  rs !! l = Some r ->
  request_copy l (mkState rs ps lg w)
  = (Ok (length rs), mkState (rs ++ [r]) ps lg w).
Proof.
  intros Hl. unfold request_copy, bind, get_request. simpl. by rewrite Hl.
Qed.

Lemma request_decode_last rs r ps lg w :
  request_decode (length rs) (mkState (rs ++ [r]) ps lg w)
  = (Ok tt, mkState (rs ++ [decoded_request r]) ps lg w).
Proof.
  unfold request_decode.
  rewrite (bind_ok _ _ _ _ _ (get_request_last _ _ _ _ _)).
  apply put_request_last.
Qed.

Lemma headers_pop_last key rs r ps lg w :
  Headers.contains key (headers r) = true ->
  headers_pop (length rs) key (mkState (rs ++ [r]) ps lg w)
  = (Ok tt,
     mkState (rs ++ [set_headers (Headers.delitem key (headers r)) r])
       ps lg w).
Proof.
  intros Hc. unfold headers_pop.
  rewrite (bind_ok _ _ _ _ _ (get_request_last _ _ _ _ _)).
  rewrite Hc. apply put_request_last.
Qed.

Lemma headers_pop_default_last key rs r ps lg w :
  headers_pop_default (length rs) key (mkState (rs ++ [r]) ps lg w)
  = (Ok tt,
     mkState (rs ++ [set_headers (Headers.delitem key (headers r)) r])
       ps lg w).
Proof.
  unfold headers_pop_default.
  rewrite (bind_ok _ _ _ _ _ (get_request_last _ _ _ _ _)).
  destruct (Headers.contains key (headers r)) eqn:Hc.
  - apply put_request_last.
  - rewrite (delitem_absent _ _ Hc). by destruct r.
Qed.

(** [cleanup_request] on a flow with a request: a new object, holding the
    sanitised state, is added to the store and returned. *)
Lemma cleanup_request_run f l r rs ps lg w :
  request f = Some l -> rs !! l = Some r ->
  cleanup_request f (mkState rs ps lg w)
  = (Ok (length rs), mkState (rs ++ [sanitized_request r]) ps lg w).
Proof.
  intros Hf Hl. unfold cleanup_request. rewrite Hf.
  rewrite (bind_ok _ _ _ _ _ (request_copy_run _ _ _ _ _ _ Hl)).
  rewrite (bind_ok _ _ _ _ _ (request_decode_last _ _ _ _ _)).
  rewrite (bind_ok _ _ _ _ _ (get_request_last _ _ _ _ _)).
  unfold sanitized_request.
  destruct (String.eqb (method (decoded_request r)) "GET"
            && option_eqb
                 (Headers.get "content-length" (headers (decoded_request r)))
                 "0") eqn:Hcond.
  - apply andb_true_iff in Hcond as [_ Hget].
    assert (Headers.contains "content-length" (headers (decoded_request r))
            = true) as Hc.
    { destruct (Headers.get "content-length" (headers (decoded_request r)))
        as [v|] eqn:Hv; [|done].
      by apply (get_contains _ _ v). }
    rewrite (bind_ok _ _ _ _ _ (headers_pop_last _ _ _ _ _ _ Hc)).
    rewrite (bind_ok _ _ _ _ _ (headers_pop_default_last _ _ _ _ _ _)).
    done.
  - rewrite (bind_ok _ (fun _ => _) _ tt (mkState (rs ++ [decoded_request r]) ps lg w))
      by done.
    rewrite (bind_ok _ _ _ _ _ (headers_pop_default_last _ _ _ _ _ _)).
    done.
Qed.

Lemma cleanup_request_dangling f l rs ps lg w :
  request f = Some l -> rs !! l = None ->
  cleanup_request f (mkState rs ps lg w)
  = (Raise DanglingReference, mkState rs ps lg w).
Proof.
  intros Hf Hl. unfold cleanup_request, request_copy, bind, get_request.
  rewrite Hf. simpl. by rewrite Hl.
Qed.

Lemma cleanup_request_absent f s :
  request f = None -> cleanup_request f s = (Raise NoRequestError, s).
Proof. intros Hf. unfold cleanup_request. by rewrite Hf. Qed.

Lemma cleanup_response_run f l p rs ps lg w :
  response f = Some l -> ps !! l = Some p ->
  cleanup_response f (mkState rs ps lg w)
  = (Ok (length ps), mkState rs (ps ++ [decoded_response p]) lg w).
Proof.
  intros Hf Hl. unfold cleanup_response. rewrite Hf.
  assert (response_copy l (mkState rs ps lg w)
          = (Ok (length ps), mkState rs (ps ++ [p]) lg w)) as Hcopy.
  { unfold response_copy, bind, get_response. simpl. by rewrite Hl. }
  rewrite (bind_ok _ _ _ _ _ Hcopy).
  assert (response_decode (length ps) (mkState rs (ps ++ [p]) lg w)
          = (Ok tt, mkState rs (ps ++ [decoded_response p]) lg w)) as Hdec.
  { unfold response_decode.
    rewrite (bind_ok _ _ _ _ _ (get_response_last _ _ _ _ _)).
    apply put_response_last. }
  by rewrite (bind_ok _ _ _ _ _ Hdec).
Qed.

Lemma cleanup_response_dangling f l rs ps lg w :
  response f = Some l -> ps !! l = None ->
  cleanup_response f (mkState rs ps lg w)
  = (Raise DanglingReference, mkState rs ps lg w).
Proof.
  intros Hf Hl. unfold cleanup_response, response_copy, bind, get_response.
  rewrite Hf. simpl. by rewrite Hl.
Qed.

Lemma cleanup_response_absent f s :
  response f = None -> cleanup_response f s = (Raise NoResponseError, s).
Proof. intros Hf. unfold cleanup_response. by rewrite Hf. Qed.

End Runs.

(** ** Strings *)

Section StringFacts.

Lemma append_nil_r (s : string) : s +:+ EmptyString = s.
Proof.
  induction s as [|c s IH]; [done|].
  change (String c (s +:+ EmptyString) = String c s). by rewrite IH.
Qed.

Lemma append_assoc (s t u : string) : (s +:+ t) +:+ u = s +:+ t +:+ u.
Proof.
  induction s as [|c s IH]; [done|].
  change (String c ((s +:+ t) +:+ u) = String c (s +:+ t +:+ u)).
  by rewrite IH.
Qed.

Lemma fold_left_append {A} (step : string -> A -> string) (g : A -> string)
    (l : list A) (init : string) :
  (forall d x, step d x = d +:+ g x) ->
  fold_left step l init = init +:+ flatten (List.map g l).
Proof.
  intros Hstep. revert init.
  induction l as [|x l IH]; intros init; simpl.
  - by rewrite append_nil_r.
  - by rewrite IH, Hstep, append_assoc.
Qed.

(** Between single quotes, a text with no single quote in it is read back
    as it is. *)
Lemma sh_scan_single (word : string) (words : list string) (v rest : string) :
  quote_free v = true ->
  sh_scan Single (Some word) words (v +:+ String "'" rest)
  = sh_scan Unquoted (Some (word +:+ v)) words rest.
Proof.
  revert word. induction v as [|c v IH]; intros word Hfree.
  - by rewrite append_nil_r.
  - simpl in Hfree. apply andb_true_iff in Hfree as [Hc Hv].
    change (String c v +:+ String "'" rest)
      with (String c (v +:+ String "'" rest)).
    simpl. destruct (Ascii.eqb c "'"); [done|].
    unfold push. simpl. rewrite (IH _ Hv).
    by rewrite append_assoc.
Qed.

Lemma sh_words_single_quoted (v : string) :
  quote_free v = true ->
  sh_words (String "'" (v +:+ String "'" EmptyString)) = Some [v].
Proof.
  intros Hfree. unfold sh_words. simpl.
  by rewrite (sh_scan_single EmptyString [] v EmptyString Hfree).
Qed.

End StringFacts.

(** ** The format table and the two commands *)

Section Commands.

Context `{E : Externals}.

Lemma formats_curl :
  formats !! "curl" = Some (fun f => as_str (curl_command (E := E) f)).
Proof. done. Qed.

Lemma formats_raw :
  formats !! "raw"
  = Some (fun f => as_bytes (raw (E := E) f default_separator)).
Proof. done. Qed.

Lemma formats_command_run (s : State E) :
  formats_command s = (Ok format_names, s).
Proof. done. Qed.

Lemma formats_unknown (fmt : string) :
  ~ In fmt format_names -> formats (E := E) !! fmt = None.
Proof.
  intros Hnot. apply not_elem_of_list_to_map_1.
  intros Hin. apply Hnot. by apply list_elem_of_In.
Qed.

Lemma file_run fmt (func : Flow -> M E Output) f path s v s1 :
  formats !! fmt = Some func -> func f s = (Ok v, s1) ->
  file fmt f path s
  = try_except (write_file path v)
      (fun e => match e with
                | IOError msg => Some (log_error msg)
                | _ => None
                end) s1.
Proof.
  intros Hfmt Hrun. unfold file. rewrite Hfmt. by rewrite (bind_ok _ _ _ _ _ Hrun).
Qed.

Lemma file_raise fmt (func : Flow -> M E Output) f path s e s1 :
  formats !! fmt = Some func -> func f s = (Raise e, s1) ->
  file fmt f path s = (Raise e, s1).
Proof.
  intros Hfmt Hrun. unfold file. rewrite Hfmt.
  by rewrite (bind_raise _ _ _ _ _ Hrun).
Qed.

Lemma clip_run fmt (func : Flow -> M E Output) f s v s1 :
  formats !! fmt = Some func -> func f s = (Ok v, s1) ->
  clip fmt f s
  = try_except (world_op (pyperclip_copy (always_str_of v)) PyperclipException)
      (fun e => match e with
                | PyperclipException msg => Some (log_error msg)
                | _ => None
                end) s1.
Proof.
  intros Hfmt Hrun. unfold clip. rewrite Hfmt. by rewrite (bind_ok _ _ _ _ _ Hrun).
Qed.

Lemma clip_raise fmt (func : Flow -> M E Output) f s e s1 :
  formats !! fmt = Some func -> func f s = (Raise e, s1) ->
  clip fmt f s = (Raise e, s1).
Proof.
  intros Hfmt Hrun. unfold clip. rewrite Hfmt.
  by rewrite (bind_raise _ _ _ _ _ Hrun).
Qed.

(** What the world's operations raise is what they were told to raise. *)
Lemma world_op_raises op mk s e s' :
  world_op (E := E) op mk s = (Raise e, s') -> exists msg, e = mk msg.
Proof.
  unfold world_op. destruct (op (world s)) as [[msg|] w]; intros [= <- <-]; eauto.
Qed.

(** The body of [file]'s [try] raises [IOError] or [UnicodeEncodeError]
    only. *)
Lemma write_file_raises path v s e s' :
  write_file (E := E) path v s = (Raise e, s') ->
  e = UnicodeEncodeError \/ exists msg, e = IOError msg.
Proof.
  unfold write_file, with_open_wb, bind.
  destruct (world_op (open_wb path) IOError s) as [[[]|e0] s0] eqn:Hopen.
  2:{ intros [= <- <-]. right. by eapply world_op_raises. }
  set (body := match v with Bytes _ => _ | Str _ => _ end).
  assert (forall e1 s1, body s0 = (Raise e1, s1) ->
            e1 = UnicodeEncodeError \/ exists msg, e1 = IOError msg) as Hbody.
  { subst body. intros e1 s1. destruct v as [t|b].
    - destruct (encode_utf8 t).
      + intros H. right. by eapply world_op_raises.
      + intros [= <- <-]. by left.
    - intros H. right. by eapply world_op_raises. }
  destruct (body s0) as [[[]|e1] s1] eqn:Hb.
  - intros H. right. by eapply world_op_raises.
  - destruct (world_op (fp_close path) IOError s1) as [[[]|e2] s2] eqn:Hclose.
    + intros [= <- <-]. by eapply Hbody.
    + intros [= <- <-]. right. by eapply world_op_raises.
Qed.

End Commands.

(** ** The claims *)

Section Claims.

Context `{E : Externals}.

Implicit Types (f : Flow) (s : State E).

(** C6. A flow with no request makes [curl_command] fail with
    NoRequestError, and a flow with neither a request nor a response makes
    [raw] fail with NoContentError; so do the exports to a file and to the
    clipboard in these formats.  Nothing is copied, written or logged. *)
Theorem export_of_nothing_fails f s (path : string) :
  request f = None ->
  (curl_command f s = (Raise NoRequestError, s)
   /\ file "curl" f path s = (Raise NoRequestError, s)
   /\ clip "curl" f s = (Raise NoRequestError, s))
  /\ (response f = None ->
      raw f default_separator s = (Raise NoContentError, s)
      /\ file "raw" f path s = (Raise NoContentError, s)
      /\ clip "raw" f s = (Raise NoContentError, s)).
Proof.
  intros Hq.
  assert (curl_command f s = (Raise NoRequestError, s)) as Hcurl.
  { unfold curl_command.
    by rewrite (bind_raise _ _ _ _ _ (cleanup_request_absent f s Hq)). }
  split.
  - split; [done|].
    assert (as_str (curl_command f) s = (Raise NoRequestError, s)) as Hfmt.
    { unfold as_str. by rewrite (bind_raise _ _ _ _ _ Hcurl). }
    split.
    + by apply (file_raise _ _ _ _ _ _ _ formats_curl).
    + by apply (clip_raise _ _ _ _ _ _ formats_curl).
  - intros Hp.
    assert (raw f default_separator s = (Raise NoContentError, s)) as Hraw.
    { unfold raw. by rewrite Hq, Hp. }
    split; [done|].
    assert (as_bytes (raw f default_separator) s
            = (Raise NoContentError, s)) as Hfmt.
    { unfold as_bytes. by rewrite (bind_raise _ _ _ _ _ Hraw). }
    split.
    + by apply (file_raise _ _ _ _ _ _ _ formats_raw).
    + by apply (clip_raise _ _ _ _ _ _ formats_raw).
Qed.

(** C7. For a format name that is none of curl, httpie, raw, raw_request
    and raw_response, [file] and [clip] fail with UnknownFormatError, and
    the state is the one they were called in: nothing was formatted,
    written, copied or logged. *)
Theorem unknown_format_is_refused (fmt : string) f (path : string) s :
  ~ In fmt format_names ->
  file fmt f path s = (Raise (UnknownFormatError fmt), s)
  /\ clip fmt f s = (Raise (UnknownFormatError fmt), s).
Proof.
  intros Hnot%(formats_unknown (E := E)).
  unfold file, clip. by rewrite Hnot.
Qed.

(** C8. Once the formatter has returned, a failure of the sink does not
    reach the caller: when writing the file raises IOError, [file] logs
    the error and returns normally, when the clipboard copy raises
    PyperclipException, so does [clip]; neither command ever raises the
    exception of its sink. *)
Theorem sink_failure_is_reported (fmt : string) (func : Flow -> M E Output)
    f (path : string) s (v : Output) s1 :
  formats !! fmt = Some func ->
  func f s = (Ok v, s1) ->
  (forall msg s2,
      write_file path v s1 = (Raise (IOError msg), s2) ->
      file fmt f path s = (Ok tt, set_log (log s2 ++ [msg]) s2))
  /\ (forall msg s2,
      world_op (pyperclip_copy (always_str_of v)) PyperclipException s1
      = (Raise (PyperclipException msg), s2) ->
      clip fmt f s = (Ok tt, set_log (log s2 ++ [msg]) s2))
  /\ (forall msg s', file fmt f path s <> (Raise (IOError msg), s'))
  /\ (forall msg s', clip fmt f s <> (Raise (PyperclipException msg), s')).
Proof.
  intros Hfmt Hrun.
  rewrite (file_run _ _ _ path _ _ _ Hfmt Hrun).
  rewrite (clip_run _ _ _ _ _ _ Hfmt Hrun).
  unfold try_except. repeat split.
  - intros msg s2 ->. done.
  - intros msg s2 ->. done.
  - intros msg s'.
    destruct (write_file path v s1) as [[[]|e] s2] eqn:Hw; [done|].
    destruct (write_file_raises _ _ _ _ _ Hw) as [->|[msg' ->]]; done.
  - intros msg s'.
    destruct (world_op _ _ s1) as [[[]|e] s2] eqn:Hw; [done|].
    destruct (world_op_raises _ _ _ _ _ Hw) as [msg' ->]. done.
Qed.

(** C9. [cleanup_request] and [cleanup_response] leave every object of
    the store as it was, the request and the response of the flow among
    them: method, URL, headers and body; the log and the world outside
    are untouched too.  What they return is a new object, none of those
    that existed before. *)
Theorem sanitizers_leave_the_source_unchanged f s :
  ((forall l r, requests s !! l = Some r ->
                requests (snd (cleanup_request f s)) !! l = Some r)
   /\ responses (snd (cleanup_request f s)) = responses s
   /\ log (snd (cleanup_request f s)) = log s
   /\ world (snd (cleanup_request f s)) = world s
   /\ (forall l, fst (cleanup_request f s) = Ok l -> requests s !! l = None))
  /\ ((forall l p, responses s !! l = Some p ->
                   responses (snd (cleanup_response f s)) !! l = Some p)
      /\ requests (snd (cleanup_response f s)) = requests s
      /\ log (snd (cleanup_response f s)) = log s
      /\ world (snd (cleanup_response f s)) = world s
      /\ (forall l, fst (cleanup_response f s) = Ok l ->
                    responses s !! l = None)).
Proof.
  destruct s as [rs ps lg w]. split.
  - destruct (request f) as [l0|] eqn:Hf.
    + destruct (rs !! l0) as [r0|] eqn:Hl.
      * rewrite (cleanup_request_run _ _ _ _ _ _ _ Hf Hl). simpl.
        repeat split; [|by intros l [= <-]; apply lookup_ge_None_2].
        intros l r Hr. by apply lookup_app_l_Some.
      * rewrite (cleanup_request_dangling _ _ _ _ _ _ Hf Hl). simpl.
        repeat split; [done|discriminate].
    + rewrite (cleanup_request_absent _ _ Hf). simpl.
      repeat split; [done|discriminate].
  - destruct (response f) as [l0|] eqn:Hf.
    + destruct (ps !! l0) as [p0|] eqn:Hl.
      * rewrite (cleanup_response_run _ _ _ _ _ _ _ Hf Hl). simpl.
        repeat split; [|by intros l [= <-]; apply lookup_ge_None_2].
        intros l p Hp. by apply lookup_app_l_Some.
      * rewrite (cleanup_response_dangling _ _ _ _ _ _ Hf Hl). simpl.
        repeat split; [done|discriminate].
    + rewrite (cleanup_response_absent _ _ Hf). simpl.
      repeat split; [done|discriminate].
Qed.

Lemma raw_request_run f l r rs ps lg w :
  request f = Some l -> rs !! l = Some r ->
  raw_request f (mkState rs ps lg w)
  = (Ok (assemble_request (sanitized_request r)),
     mkState (rs ++ [sanitized_request r]) ps lg w).
Proof.
  intros Hf Hl. unfold raw_request.
  rewrite (bind_ok _ _ _ _ _ (cleanup_request_run _ _ _ _ _ _ _ Hf Hl)).
  by rewrite (bind_ok _ _ _ _ _ (get_request_last _ _ _ _ _)).
Qed.

Lemma raw_response_run f l p rs ps lg w :
  response f = Some l -> ps !! l = Some p ->
  raw_response f (mkState rs ps lg w)
  = (Ok (assemble_response (decoded_response p)),
     mkState rs (ps ++ [decoded_response p]) lg w).
Proof.
  intros Hf Hl. unfold raw_response.
  rewrite (bind_ok _ _ _ _ _ (cleanup_response_run _ _ _ _ _ _ _ Hf Hl)).
  by rewrite (bind_ok _ _ _ _ _ (get_response_last _ _ _ _ _)).
Qed.

(** C4. For a flow with a request and a response, [raw] returns what
    [raw_request] returns (the assembly of the sanitised request), then
    the separator, then what [raw_response] returns (the assembly of the
    sanitised response); the separator of the raw format is the four
    bytes CR LF CR LF.  With a request only, [raw] is [raw_request] and
    returns the assembly of the sanitised request, alone; with a response
    only, it is [raw_response] and returns the assembly of the sanitised
    response, alone. *)
Theorem raw_is_request_separator_response f s (separator : bytes) :
  (forall lq lp r p,
      request f = Some lq -> response f = Some lp ->
      requests s !! lq = Some r -> responses s !! lp = Some p ->
      exists a b sa sb s',
        raw_request f s = (Ok a, sa)
        /\ raw_response f s = (Ok b, sb)
        /\ a = assemble_request (sanitized_request r)
        /\ b = assemble_response (decoded_response p)
        /\ raw f separator s = (Ok (a ++ separator ++ b), s'))
  /\ (forall lq, request f = Some lq -> response f = None ->
                 raw f separator s = raw_request f s
                 /\ forall r, requests s !! lq = Some r ->
                      fst (raw f separator s)
                      = Ok (assemble_request (sanitized_request r)))
  /\ (forall lp, request f = None -> response f = Some lp ->
                 raw f separator s = raw_response f s
                 /\ forall p, responses s !! lp = Some p ->
                      fst (raw f separator s)
                      = Ok (assemble_response (decoded_response p)))
  /\ default_separator = [x0d; x0a; x0d; x0a]%byte
  /\ length default_separator = 4.
Proof.
  destruct s as [rs ps lg w]. simpl.
  split; [|split; [|split; [|done]]].
  - intros lq lp r p Hq Hp Hr Hpl.
    eexists _, _, _, _, _.
    split; [by apply (raw_request_run _ _ _ _ _ _ _ Hq Hr)|].
    split; [by apply (raw_response_run _ _ _ _ _ _ _ Hp Hpl)|].
    split; [done|]. split; [done|].
    unfold raw. rewrite Hq, Hp. simpl.
    rewrite (bind_ok _ _ _ _ _ (raw_request_run _ _ _ _ _ _ _ Hq Hr)).
    by rewrite (bind_ok _ _ _ _ _ (raw_response_run _ _ _ _ _ _ _ Hp Hpl)).
  - intros lq Hq Hp.
    assert (raw f separator (mkState rs ps lg w)
            = raw_request f (mkState rs ps lg w)) as Hraw.
    { unfold raw. by rewrite Hq, Hp. }
    split; [done|]. intros r Hr.
    by rewrite Hraw, (raw_request_run _ _ _ _ _ _ _ Hq Hr).
  - intros lp Hq Hp.
    assert (raw f separator (mkState rs ps lg w)
            = raw_response f (mkState rs ps lg w)) as Hraw.
    { unfold raw. by rewrite Hq, Hp. }
    split; [done|]. intros p Hpl.
    by rewrite Hraw, (raw_response_run _ _ _ _ _ _ _ Hp Hpl).
Qed.

Lemma get_of_entries (key : string) (h h' : Headers.t) :
  Headers.entries key h = Headers.entries key h' ->
  Headers.get key h = Headers.get key h'.
Proof. unfold Headers.get, Headers.get_all. by intros ->. Qed.

(** C5, as amended. [cleanup_request] reads the headers of the copy
    after the decode pass.  If the method is GET and the content-length
    lookup of the decoded copy, which folds the values of all the entries
    of the name into one string, is exactly "0", the sanitised request has
    no Content-Length entry, in any spelling of the name; with another
    method, or another lookup (no such header, another value, several
    entries), its Content-Length entries are those the decode pass left,
    unchanged. *)
Theorem get_content_length_zero_is_removed f (l : ref) (r : Request)
    rs ps lg w :
  request f = Some l -> rs !! l = Some r ->
  exists q,
    cleanup_request f (mkState rs ps lg w)
    = (Ok (length rs), mkState (rs ++ [q]) ps lg w)
    /\ (method r = "GET" ->
        Headers.get "content-length"
          (fst (decode_lenient (headers r) (content r))) = Some "0" ->
        no_header "content-length" (headers q))
    /\ (method r <> "GET"
        \/ Headers.get "content-length"
             (fst (decode_lenient (headers r) (content r))) <> Some "0" ->
        Headers.entries "content-length" (headers q)
        = Headers.entries "content-length"
            (fst (decode_lenient (headers r) (content r)))).
Proof.
  intros Hf Hl. exists (sanitized_request r).
  split; [by apply (cleanup_request_run _ l)|].
  unfold sanitized_request. simpl. split.
  - intros Hm H0. rewrite Hm, H0. simpl.
    apply entries_nil_no_field.
    rewrite entries_delitem_other by done.
    apply entries_delitem_same.
  - intros Hor.
    assert (String.eqb (method r) "GET"
            && option_eqb
                 (Headers.get "content-length"
                    (fst (decode_lenient (headers r) (content r)))) "0"
            = false) as ->.
    { apply andb_false_iff. destruct Hor as [Hm|H0].
      - left. by apply String.eqb_neq.
      - right.
        destruct (Headers.get "content-length"
                    (fst (decode_lenient (headers r) (content r)))) as [v|];
          [|done].
        simpl. apply String.eqb_neq. congruence. }
    by rewrite entries_delitem_other.
Qed.

(** C2, as amended. The sanitised request has no entry named
    ":authority", in any spelling; [cleanup_response] removes no header:
    the sanitised response is the copy after the decode pass. *)
Theorem sanitized_request_has_no_authority f rs ps lg w :
  (forall l r,
      request f = Some l -> rs !! l = Some r ->
      exists q,
        cleanup_request f (mkState rs ps lg w)
        = (Ok (length rs), mkState (rs ++ [q]) ps lg w)
        /\ no_header ":authority" (headers q))
  /\ (forall l p,
      response f = Some l -> ps !! l = Some p ->
      exists q,
        cleanup_response f (mkState rs ps lg w)
        = (Ok (length ps), mkState rs (ps ++ [q]) lg w)
        /\ resp_headers q
           = fst (decode_lenient (resp_headers p) (resp_content p))).
Proof.
  split.
  - intros l r Hf Hl. exists (sanitized_request r).
    split; [by apply (cleanup_request_run _ l)|].
    apply entries_nil_no_field. unfold sanitized_request. simpl.
    apply entries_delitem_same.
  - intros l p Hf Hl. exists (decoded_response p).
    split; [by apply (cleanup_response_run _ l)|done].
Qed.

(** The text of [curl_command]: the header flags, the method unless it is
    GET, the quoted URL, and the body clause when the body is truthy. *)
Lemma curl_command_run f l r rs ps lg w :
  request f = Some l -> rs !! l = Some r ->
  let q := sanitized_request r in
  curl_command f (mkState rs ps lg w)
  = (Ok ("curl " +:+ flatten (List.map curl_header_flag (headers q))
         +:+ (if String.eqb (method q) "GET" then EmptyString
              else "-X " +:+ method q +:+ " ")
         +:+ "'" +:+ url q +:+ "'"
         +:+ (if truthy (content q)
              then " --data-binary '"
                   +:+ bytes_to_escaped_str (default [] (content q)) true
                   +:+ "'"
              else EmptyString)),
     mkState (rs ++ [q]) ps lg w).
Proof.
  intros Hf Hl q. unfold curl_command.
  rewrite (bind_ok _ _ _ _ _ (cleanup_request_run _ _ _ _ _ _ _ Hf Hl)).
  rewrite (bind_ok _ _ _ _ _ (get_request_last _ _ _ _ _)).
  fold q. unfold ret, Headers.items. do 2 f_equal.
  rewrite (fold_left_append _ curl_header_flag).
  2:{ intros d kv. unfold curl_header_flag. by rewrite append_assoc. }
  destruct (String.eqb (method q) "GET"), (truthy (content q)); simpl;
    by rewrite ?append_assoc, ?append_nil_r.
Qed.

Lemma httpie_command_run f l r rs ps lg w :
  request f = Some l -> rs !! l = Some r ->
  let q := sanitized_request r in
  httpie_command f (mkState rs ps lg w)
  = (Ok ("http " +:+ method q +:+ " " +:+ url q
         +:+ flatten (List.map httpie_header_item (headers q))
         +:+ (if truthy (content q)
              then " <<< '"
                   +:+ bytes_to_escaped_str (default [] (content q)) true
                   +:+ "'"
              else EmptyString)),
     mkState (rs ++ [q]) ps lg w).
Proof.
  intros Hf Hl q. unfold httpie_command.
  rewrite (bind_ok _ _ _ _ _ (cleanup_request_run _ _ _ _ _ _ _ Hf Hl)).
  rewrite (bind_ok _ _ _ _ _ (get_request_last _ _ _ _ _)).
  fold q. unfold ret, Headers.items. do 2 f_equal.
  rewrite (fold_left_append _ httpie_header_item) by done.
  destruct (truthy (content q));
    by rewrite ?append_assoc, ?append_nil_r.
Qed.

(** C10. For a request whose body is the empty byte string, as for one
    whose body is absent, [curl_command] ends with the quoted URL and
    [httpie_command] with the last header: neither a --data-binary clause
    nor a <<< clause follows.  The decode pass is taken to leave an empty
    or absent body empty or absent. *)
Theorem empty_body_adds_no_data_clause f (l : ref) (r : Request)
    rs ps lg w :
  request f = Some l -> rs !! l = Some r ->
  content r = Some [] \/ content r = None ->
  (forall h body, truthy body = false ->
                  truthy (snd (decode_lenient h body)) = false) ->
  let q := sanitized_request r in
  curl_command f (mkState rs ps lg w)
  = (Ok ("curl " +:+ flatten (List.map curl_header_flag (headers q))
         +:+ (if String.eqb (method q) "GET" then EmptyString
              else "-X " +:+ method q +:+ " ")
         +:+ "'" +:+ url q +:+ "'"),
     mkState (rs ++ [q]) ps lg w)
  /\ httpie_command f (mkState rs ps lg w)
     = (Ok ("http " +:+ method q +:+ " " +:+ url q
            +:+ flatten (List.map httpie_header_item (headers q))),
        mkState (rs ++ [q]) ps lg w).
Proof.
  intros Hf Hl Hbody Hfalsy q.
  rewrite (curl_command_run _ _ _ _ _ _ _ Hf Hl).
  rewrite (httpie_command_run _ _ _ _ _ _ _ Hf Hl).
  fold q. assert (truthy (content q) = false) as ->.
  { apply Hfalsy. by destruct Hbody as [-> | ->]. }
  by rewrite !append_nil_r.
Qed.

(** C1, as amended. For GET http://example.com/ with the headers
    Host: example.com and accept-encoding: gzip and no body, which the
    decode pass leaves as it is, [curl_command] returns
    curl -H 'Host:example.com' --compressed -H 'accept-encoding:gzip'
    'http://example.com/': --compressed comes right before the -H flag of
    the header named accept-encoding. *)
Theorem curl_example_with_lowercase_name (l : ref) rs ps lg w :
  rs !! l = Some Examples.lowercase_request ->
  decode_lenient (headers Examples.lowercase_request) None
  = (headers Examples.lowercase_request, None) ->
  curl_command (mkFlow (Some l) None) (mkState rs ps lg w)
  = (Ok "curl -H 'Host:example.com' --compressed -H 'accept-encoding:gzip' 'http://example.com/'",
     mkState (rs ++ [Examples.lowercase_request]) ps lg w).
Proof.
  intros Hl Hdec.
  rewrite (curl_command_run (mkFlow (Some l) None) l _ _ _ _ _ eq_refl Hl).
  assert (sanitized_request Examples.lowercase_request
          = Examples.lowercase_request) as ->; [|done].
  unfold sanitized_request, decoded_request. simpl in Hdec |- *.
  by rewrite Hdec.
Qed.

(** C3. A single quote in a header value is written as it is between the
    single quotes of the token: for the header X-Note: it's, which the
    decode pass leaves alone, [curl_command] returns
    curl -H 'X-Note:it's' 'http://example.com/' and [httpie_command]
    http GET http://example.com/ 'X-Note:it's', command lines in which a
    shell finds a quote left open, not the header. *)
Theorem header_value_quote_is_not_escaped (l : ref) rs ps lg w :
  rs !! l = Some Examples.quoted_request ->
  decode_lenient (headers Examples.quoted_request) None
  = (headers Examples.quoted_request, None) ->
  fst (curl_command (mkFlow (Some l) None) (mkState rs ps lg w))
  = Ok "curl -H 'X-Note:it's' 'http://example.com/'"
  /\ fst (httpie_command (mkFlow (Some l) None) (mkState rs ps lg w))
     = Ok "http GET http://example.com/ 'X-Note:it's'"
  /\ sh_words "curl -H 'X-Note:it's' 'http://example.com/'" = None
  /\ sh_words "http GET http://example.com/ 'X-Note:it's'" = None
  /\ sh_words Examples.neutralised_line
     = Some ["curl"; "-H"; "X-Note:it's"; "http://example.com/"].
Proof.
  intros Hl Hdec.
  rewrite (curl_command_run (mkFlow (Some l) None) l _ _ _ _ _ eq_refl Hl).
  rewrite (httpie_command_run (mkFlow (Some l) None) l _ _ _ _ _ eq_refl Hl).
  assert (sanitized_request Examples.quoted_request
          = Examples.quoted_request) as ->; [|done].
  unfold sanitized_request, decoded_request. simpl in Hdec |- *.
  by rewrite Hdec.
Qed.

End Claims.

(** ** The claims on the examples *)

Section OnExamples.

Import Examples.

(** The request of the specification's example, with the header spelt
    Accept-Encoding: no --compressed is written, and the text is not the
    one the example gives. *)
Lemma curl_example_lacks_compressed :
  fst (curl_command request_only (Demo.state_of [example_request] [] Demo.empty_world))
  = Ok "curl -H 'Host:example.com' -H 'Accept-Encoding:gzip' 'http://example.com/'"
  /\ fst (curl_command request_only
            (Demo.state_of [example_request] [] Demo.empty_world))
     <> Ok "curl --compressed -H 'Host:example.com' -H 'Accept-Encoding:gzip' 'http://example.com/'".
Proof. split; [done|discriminate]. Qed.

Lemma curl_example_with_lowercase_name_witness :
  curl_command request_only (Demo.state_of [lowercase_request] [] Demo.empty_world)
  = (Ok "curl -H 'Host:example.com' --compressed -H 'accept-encoding:gzip' 'http://example.com/'",
     Demo.state_of [lowercase_request; lowercase_request] [] Demo.empty_world).
Proof.
  exact (curl_example_with_lowercase_name (E := Demo.externals)
           0 [lowercase_request] [] [] Demo.empty_world eq_refl eq_refl).
Defined.

(** A response that carries an entry named ":authority" keeps it through
    [cleanup_response]. *)
Lemma cleanup_response_keeps_authority :
  exists l s' p,
    cleanup_response response_only
      (Demo.state_of [] [authority_response] Demo.empty_world) = (Ok l, s')
    /\ responses s' !! l = Some p
    /\ In (":authority", "example.com") (resp_headers p)
    /\ ~ no_header ":authority" (resp_headers p).
Proof.
  exists 1, (Demo.state_of [] [authority_response; authority_response] Demo.empty_world),
    authority_response.
  repeat split; [by left|].
  intros Hno. by apply (Hno ":authority" "example.com"); [left|].
Qed.

Lemma sanitized_request_has_no_authority_witness :
  (exists q,
      cleanup_request both_sides
        (Demo.state_of [authority_request] [authority_response] Demo.empty_world)
      = (Ok 1,
         Demo.state_of [authority_request; q] [authority_response] Demo.empty_world)
      /\ no_header ":authority" (headers q))
  /\ (exists q,
      cleanup_response both_sides
        (Demo.state_of [authority_request] [authority_response] Demo.empty_world)
      = (Ok 1,
         Demo.state_of [authority_request] [authority_response; q] Demo.empty_world)
      /\ resp_headers q = [(":authority", "example.com")]).
Proof.
  pose proof (sanitized_request_has_no_authority (E := Demo.externals)
                both_sides [authority_request] [authority_response] []
                Demo.empty_world) as [Hq Hp].
  split.
  - exact (Hq 0 authority_request eq_refl eq_refl).
  - exact (Hp 0 authority_response eq_refl eq_refl).
Defined.

Lemma header_value_quote_is_not_escaped_witness :
  fst (curl_command request_only (Demo.state_of [quoted_request] [] Demo.empty_world))
  = Ok "curl -H 'X-Note:it's' 'http://example.com/'"
  /\ sh_words "curl -H 'X-Note:it's' 'http://example.com/'" = None.
Proof.
  pose proof (header_value_quote_is_not_escaped (E := Demo.externals)
                0 [quoted_request] [] [] Demo.empty_world eq_refl eq_refl)
    as (Hcurl & _ & Hwords & _).
  exact (conj Hcurl Hwords).
Defined.

Lemma raw_is_request_separator_response_witness :
  (exists a b sa sb s',
      raw_request both_sides
        (Demo.state_of [example_request] [example_response] Demo.empty_world)
      = (Ok a, sa)
      /\ raw_response both_sides
           (Demo.state_of [example_request] [example_response]
              Demo.empty_world)
         = (Ok b, sb)
      /\ a = Demo.assemble_request example_request
      /\ b = Demo.assemble_response example_response
      /\ raw both_sides default_separator
           (Demo.state_of [example_request] [example_response]
              Demo.empty_world)
         = (Ok (a ++ default_separator ++ b), s'))
  /\ fst (raw request_only default_separator
            (Demo.state_of [example_request] [] Demo.empty_world))
     = Ok (Demo.assemble_request example_request)
  /\ fst (raw response_only default_separator
            (Demo.state_of [] [example_response] Demo.empty_world))
     = Ok (Demo.assemble_response example_response).
Proof.
  split; [|split].
  - exact (proj1 (raw_is_request_separator_response (E := Demo.externals)
                    both_sides
                    (Demo.state_of [example_request] [example_response]
                       Demo.empty_world)
                    default_separator)
             0 0 example_request example_response
             eq_refl eq_refl eq_refl eq_refl).
  - exact (proj2 (proj1 (proj2 (raw_is_request_separator_response
                                  (E := Demo.externals) request_only
                                  (Demo.state_of [example_request] []
                                     Demo.empty_world)
                                  default_separator))
                    0 eq_refl eq_refl)
             example_request eq_refl).
  - exact (proj2 (proj1 (proj2 (proj2 (raw_is_request_separator_response
                                         (E := Demo.externals) response_only
                                         (Demo.state_of [] [example_response]
                                            Demo.empty_world)
                                         default_separator)))
                    0 eq_refl eq_refl)
             example_response eq_refl).
Defined.

(** A GET request that states Content-Length: 0 twice and has no body
    keeps both entries: the lookup folds them into "0, 0", which is not
    "0". *)
Lemma repeated_content_length_zero_is_kept :
  method repeated_length_request = "GET"
  /\ In ("Content-Length", "0") (headers repeated_length_request)
  /\ exists q,
       cleanup_request request_only
         (Demo.state_of [repeated_length_request] [] Demo.empty_world)
       = (Ok 1,
          Demo.state_of [repeated_length_request; q] [] Demo.empty_world)
       /\ headers q = [("Content-Length", "0"); ("Content-Length", "0")]
       /\ ~ no_header "content-length" (headers q).
Proof.
  split; [done|]. split; [by left|].
  exists repeated_length_request. repeat split.
  intros Hno. by apply (Hno "Content-Length" "0"); [left|].
Qed.

Lemma get_content_length_zero_is_removed_witness :
  exists q,
    cleanup_request request_only
      (Demo.state_of [authority_request] [] Demo.empty_world)
    = (Ok 1, Demo.state_of [authority_request; q] [] Demo.empty_world)
    /\ no_header "content-length" (headers q).
Proof.
  destruct (get_content_length_zero_is_removed (E := Demo.externals)
              request_only 0 authority_request [authority_request] [] []
              Demo.empty_world eq_refl eq_refl) as (q & Hrun & Hzero & _).
  exists q. split; [exact Hrun|]. exact (Hzero eq_refl eq_refl).
Defined.

Lemma export_of_nothing_fails_witness :
  curl_command neither_side (Demo.state_of [] [] Demo.empty_world)
  = (Raise NoRequestError, Demo.state_of [] [] Demo.empty_world)
  /\ raw neither_side default_separator (Demo.state_of [] [] Demo.empty_world)
     = (Raise NoContentError, Demo.state_of [] [] Demo.empty_world).
Proof.
  pose proof (export_of_nothing_fails (E := Demo.externals) neither_side
                (Demo.state_of [] [] Demo.empty_world) "/tmp/flow" eq_refl)
    as [(Hcurl & _) Hraw].
  split; [exact Hcurl|]. exact (proj1 (Hraw eq_refl)).
Defined.

Lemma not_a_format : ~ In "har" format_names.
Proof. simpl. intros H. repeat destruct H as [H|H]; done. Defined.

Lemma unknown_format_is_refused_witness :
  file "har" request_only "/tmp/flow.har"
    (Demo.state_of [example_request] [] Demo.empty_world)
  = (Raise (UnknownFormatError "har"),
     Demo.state_of [example_request] [] Demo.empty_world)
  /\ clip "har" request_only (Demo.state_of [example_request] [] Demo.empty_world)
     = (Raise (UnknownFormatError "har"),
        Demo.state_of [example_request] [] Demo.empty_world).
Proof.
  exact (unknown_format_is_refused (E := Demo.externals) "har" request_only
           "/tmp/flow.har" (Demo.state_of [example_request] [] Demo.empty_world)
           not_a_format).
Defined.

Lemma empty_body_adds_no_data_clause_witness :
  curl_command request_only (Demo.state_of [empty_post] [] Demo.empty_world)
  = (Ok "curl -H 'Host:example.com' -X POST 'http://example.com/form'",
     Demo.state_of [empty_post; empty_post] [] Demo.empty_world)
  /\ httpie_command request_only (Demo.state_of [empty_post] [] Demo.empty_world)
     = (Ok "http POST http://example.com/form 'Host:example.com'",
        Demo.state_of [empty_post; empty_post] [] Demo.empty_world).
Proof.
  exact (empty_body_adds_no_data_clause (E := Demo.externals)
           request_only 0 empty_post [empty_post] [] [] Demo.empty_world
           eq_refl eq_refl (or_introl eq_refl) (fun _ _ H => H)).
Defined.

Lemma sink_failure_is_reported_witness :
  file "curl" request_only "/proc/version"
    (Demo.state_of [example_request] [] Demo.empty_world)
  = (Ok tt,
     mkState (E := Demo.externals) [example_request; example_request] []
       ["[Errno 13] Permission denied: '/proc/version'"] Demo.empty_world)
  /\ clip "curl" request_only
       (Demo.state_of [example_request] [] Demo.no_clipboard)
     = (Ok tt,
        mkState (E := Demo.externals) [example_request; example_request] []
          ["Pyperclip could not find a copy/paste mechanism for your system."]
          Demo.no_clipboard).
Proof.
  split.
  - exact (proj1 (sink_failure_is_reported (E := Demo.externals) "curl"
                    (fun f => as_str (curl_command f)) request_only
                    "/proc/version"
                    (Demo.state_of [example_request] [] Demo.empty_world)
                    (Str "curl -H 'Host:example.com' -H 'Accept-Encoding:gzip' 'http://example.com/'")
                    (Demo.state_of [example_request; example_request] []
                       Demo.empty_world)
                    formats_curl eq_refl)
             "[Errno 13] Permission denied: '/proc/version'"
             (Demo.state_of [example_request; example_request] []
                Demo.empty_world)
             eq_refl).
  - exact (proj1 (proj2 (sink_failure_is_reported (E := Demo.externals) "curl"
                    (fun f => as_str (curl_command f)) request_only
                    "/proc/version"
                    (Demo.state_of [example_request] [] Demo.no_clipboard)
                    (Str "curl -H 'Host:example.com' -H 'Accept-Encoding:gzip' 'http://example.com/'")
                    (Demo.state_of [example_request; example_request] []
                       Demo.no_clipboard)
                    formats_curl eq_refl))
             "Pyperclip could not find a copy/paste mechanism for your system."
             (Demo.state_of [example_request; example_request] []
                Demo.no_clipboard)
             eq_refl).
Defined.

Lemma sanitizers_leave_the_source_unchanged_witness :
  requests
    (snd (cleanup_request both_sides
            (Demo.state_of [authority_request] [authority_response]
               Demo.empty_world))) !! 0
  = Some authority_request
  /\ responses
       (snd (cleanup_response both_sides
               (Demo.state_of [authority_request] [authority_response]
                  Demo.empty_world))) !! 0
     = Some authority_response.
Proof.
  pose proof (sanitizers_leave_the_source_unchanged (E := Demo.externals)
                both_sides
                (Demo.state_of [authority_request] [authority_response]
                   Demo.empty_world)) as [(Hq & _) (Hp & _)].
  split.
  - exact (Hq 0 authority_request eq_refl).
  - exact (Hp 0 authority_response eq_refl).
Defined.

End OnExamples.

(** * More of the addon *)

(** ** Commands that only add objects *)

Section Frames.

Context `{E : Externals}.

Implicit Types (f : Flow) (s : State E).

Lemma extends_refl s : extends s s.
Proof. by repeat split. Qed.

Lemma extends_trans s1 s2 s3 : extends s1 s2 -> extends s2 s3 -> extends s1 s3.
Proof.
  intros (Hq & Hp & Hl & Hw) (Hq' & Hp' & Hl' & Hw').
  repeat split; [by etrans|by etrans|congruence|congruence].
Qed.

Lemma frame_ret {A} (a : A) : frame_safe (ret (E := E) a).
Proof. intros s. apply extends_refl. Qed.

Lemma frame_raise {A} (e : exn) : frame_safe (raise (E := E) (A := A) e).
Proof. intros s. apply extends_refl. Qed.

Lemma frame_get_request (l : ref) : frame_safe (get_request (E := E) l).
Proof.
  intros s. unfold get_request. destruct (requests s !! l); apply extends_refl.
Qed.

Lemma frame_get_response (l : ref) : frame_safe (get_response (E := E) l).
Proof.
  intros s. unfold get_response. destruct (responses s !! l); apply extends_refl.
Qed.

Lemma frame_bind {A B} (c : M E A) (k : A -> M E B) :
  frame_safe c -> (forall a, frame_safe (k a)) -> frame_safe (bind c k).
Proof.
  intros Hc Hk s. unfold bind. specialize (Hc s).
  destruct (c s) as [[a|e] s1]; simpl in Hc; [|done].
  by apply (extends_trans _ s1), Hk.
Qed.

Lemma frame_cleanup_request f : frame_safe (cleanup_request (E := E) f).
Proof.
  intros [rs ps lg w].
  destruct (request f) as [l|] eqn:Hf.
  - destruct (rs !! l) as [r|] eqn:Hl.
    + rewrite (cleanup_request_run _ _ _ _ _ _ _ Hf Hl).
      repeat split; simpl; [by apply prefix_app_r|done].
    + rewrite (cleanup_request_dangling _ _ _ _ _ _ Hf Hl). apply extends_refl.
  - rewrite (cleanup_request_absent _ _ Hf). apply extends_refl.
Qed.

Lemma frame_cleanup_response f : frame_safe (cleanup_response (E := E) f).
Proof.
  intros [rs ps lg w].
  destruct (response f) as [l|] eqn:Hf.
  - destruct (ps !! l) as [p|] eqn:Hl.
    + rewrite (cleanup_response_run _ _ _ _ _ _ _ Hf Hl).
      repeat split; simpl; [done|by apply prefix_app_r].
    + rewrite (cleanup_response_dangling _ _ _ _ _ _ Hf Hl). apply extends_refl.
  - rewrite (cleanup_response_absent _ _ Hf). apply extends_refl.
Qed.

Lemma frame_curl_command f : frame_safe (curl_command (E := E) f).
Proof.
  unfold curl_command. apply frame_bind; [apply frame_cleanup_request|].
  intros l. apply frame_bind; [apply frame_get_request|].
  intros r. apply frame_ret.
Qed.

Lemma frame_httpie_command f : frame_safe (httpie_command (E := E) f).
Proof.
  unfold httpie_command. apply frame_bind; [apply frame_cleanup_request|].
  intros l. apply frame_bind; [apply frame_get_request|].
  intros r. apply frame_ret.
Qed.

Lemma frame_raw_request f : frame_safe (raw_request (E := E) f).
Proof.
  unfold raw_request. apply frame_bind; [apply frame_cleanup_request|].
  intros l. apply frame_bind; [apply frame_get_request|].
  intros r. apply frame_ret.
Qed.

Lemma frame_raw_response f : frame_safe (raw_response (E := E) f).
Proof.
  unfold raw_response. apply frame_bind; [apply frame_cleanup_response|].
  intros l. apply frame_bind; [apply frame_get_response|].
  intros p. apply frame_ret.
Qed.

Lemma frame_raw f (separator : bytes) : frame_safe (raw (E := E) f separator).
Proof.
  unfold raw.
  destruct (present (request f)), (present (response f)); simpl.
  - apply frame_bind; [apply frame_raw_request|].
    intros a. apply frame_bind; [apply frame_raw_response|].
    intros b. apply frame_ret.
  - apply frame_raw_request.
  - apply frame_raw_response.
  - apply frame_raise.
Qed.

(** The five entries of [formats]. *)
Lemma formats_cases (fmt : string) (func : Flow -> M E Output) :
  formats !! fmt = Some func ->
  func = (fun f => as_str (curl_command f))
  \/ func = (fun f => as_str (httpie_command f))
  \/ func = (fun f => as_bytes (raw f default_separator))
  \/ func = (fun f => as_bytes (raw_request f))
  \/ func = (fun f => as_bytes (raw_response f)).
Proof.
  intros Hin%elem_of_list_to_map_2.
  repeat (apply elem_of_cons in Hin as [[= _ ->]|Hin]; [tauto|]).
  by apply elem_of_nil in Hin.
Qed.

Lemma frame_formats (fmt : string) (func : Flow -> M E Output) f :
  formats !! fmt = Some func -> frame_safe (func f).
Proof.
  intros Hfmt.
  destruct (formats_cases _ _ Hfmt) as [->|[->|[->|[->| ->]]]];
    unfold as_str, as_bytes;
    (apply frame_bind; [|intros; apply frame_ret]).
  - apply frame_curl_command.
  - apply frame_httpie_command.
  - apply frame_raw.
  - apply frame_raw_request.
  - apply frame_raw_response.
Qed.

(** X3. The five formatters never touch what exists: from every state
    and for every flow, each one ends, whether it returns or raises, in a
    state where the objects that existed are unchanged (copies are added
    after them) and where the log and the world outside are as before. *)
Theorem formatters_only_add_objects f s (separator : bytes) :
  extends s (snd (curl_command f s))
  /\ extends s (snd (httpie_command f s))
  /\ extends s (snd (raw_request f s))
  /\ extends s (snd (raw_response f s))
  /\ extends s (snd (raw f separator s)).
Proof.
  split; [apply frame_curl_command|].
  split; [apply frame_httpie_command|].
  split; [apply frame_raw_request|].
  split; [apply frame_raw_response|].
  apply frame_raw.
Qed.

(** X12. When the formatter of a known format raises, [file] and [clip]
    raise the same exception, in the state the formatter left: the path
    has not been opened, nothing has been copied and nothing logged. *)
Theorem formatter_error_reaches_the_caller (fmt : string)
    (func : Flow -> M E Output) f (path : string) s (e : exn) s1 :
  formats !! fmt = Some func ->
  func f s = (Raise e, s1) ->
  file fmt f path s = (Raise e, s1)
  /\ clip fmt f s = (Raise e, s1)
  /\ world s1 = world s
  /\ log s1 = log s.
Proof.
  intros Hfmt Hrun.
  split; [by apply (file_raise _ _ _ _ _ _ _ Hfmt)|].
  split; [by apply (clip_raise _ _ _ _ _ _ Hfmt)|].
  pose proof (frame_formats _ _ f Hfmt s) as (_ & _ & Hlog & Hworld).
  rewrite Hrun in Hlog, Hworld. done.
Qed.

(** X14. [cleanup_request] never raises [KeyError]: the removal of
    content-length without a default is only reached when the lookup of
    content-length has just returned a value. *)
Theorem cleanup_request_never_key_error f s (key : string) :
  fst (cleanup_request f s) <> Raise (KeyError key).
Proof.
  destruct s as [rs ps lg w].
  destruct (request f) as [l|] eqn:Hf.
  - destruct (rs !! l) as [r|] eqn:Hl.
    + by rewrite (cleanup_request_run _ _ _ _ _ _ _ Hf Hl).
    + by rewrite (cleanup_request_dangling _ _ _ _ _ _ Hf Hl).
  - by rewrite (cleanup_request_absent _ _ Hf).
Qed.

End Frames.

(** ** The format table, the sanitiser and the texts *)

Section Formatters.

Context `{E : Externals}.

Implicit Types (f : Flow) (s : State E).

Lemma formats_httpie :
  formats !! "httpie" = Some (fun f => as_str (httpie_command (E := E) f)).
Proof. done. Qed.

Lemma formats_raw_request :
  formats !! "raw_request" = Some (fun f => as_bytes (raw_request (E := E) f)).
Proof. done. Qed.

Lemma formats_raw_response :
  formats !! "raw_response"
  = Some (fun f => as_bytes (raw_response (E := E) f)).
Proof. done. Qed.

(** X1. The command export.formats returns curl, httpie, raw,
    raw_request, raw_response, in this order, which is the lexicographic
    one, and changes nothing; the names it lists are exactly those under
    which [formats] has a formatter, the ones [file] and [clip] accept. *)
Theorem listed_formats_are_the_known_ones s :
  formats_command s
  = (Ok ["curl"; "httpie"; "raw"; "raw_request"; "raw_response"], s)
  /\ Sorted String.le ["curl"; "httpie"; "raw"; "raw_request"; "raw_response"]
  /\ (forall fmt : string,
        In fmt ["curl"; "httpie"; "raw"; "raw_request"; "raw_response"]
        <-> is_Some (formats (E := E) !! fmt)).
Proof.
  split; [done|]. split; [repeat constructor|].
  intros fmt. split.
  - intros Hin. simpl in Hin.
    destruct Hin as [<-|[<-|[<-|[<-|[<-|[]]]]]]; by eexists.
  - intros [func Hfunc].
    destruct (In_dec string_dec fmt format_names) as [Hin|Hnot]; [done|].
    apply (formats_unknown (E := E)) in Hnot. congruence.
Qed.

(** X2. A flow with no request makes [httpie_command] and [raw_request]
    fail with "Can't export flow with no request.", a flow with no
    response makes [cleanup_response] and [raw_response] fail with "Can't
    export flow with no response."; so do [file] and [clip] in these
    formats.  The state is left as it was. *)
Theorem missing_side_fails f s (path : string) :
  (request f = None ->
   httpie_command f s = (Raise NoRequestError, s)
   /\ raw_request f s = (Raise NoRequestError, s)
   /\ file "httpie" f path s = (Raise NoRequestError, s)
   /\ file "raw_request" f path s = (Raise NoRequestError, s)
   /\ clip "httpie" f s = (Raise NoRequestError, s)
   /\ clip "raw_request" f s = (Raise NoRequestError, s))
  /\ (response f = None ->
      cleanup_response f s = (Raise NoResponseError, s)
      /\ raw_response f s = (Raise NoResponseError, s)
      /\ file "raw_response" f path s = (Raise NoResponseError, s)
      /\ clip "raw_response" f s = (Raise NoResponseError, s)).
Proof.
  split.
  - intros Hq.
    pose proof (cleanup_request_absent f s Hq) as Hclean.
    assert (httpie_command f s = (Raise NoRequestError, s)) as Hhttpie.
    { unfold httpie_command. by rewrite (bind_raise _ _ _ _ _ Hclean). }
    assert (raw_request f s = (Raise NoRequestError, s)) as Hraw.
    { unfold raw_request. by rewrite (bind_raise _ _ _ _ _ Hclean). }
    assert (as_str (httpie_command f) s = (Raise NoRequestError, s)) as Hh.
    { unfold as_str. by rewrite (bind_raise _ _ _ _ _ Hhttpie). }
    assert (as_bytes (raw_request f) s = (Raise NoRequestError, s)) as Hr.
    { unfold as_bytes. by rewrite (bind_raise _ _ _ _ _ Hraw). }
    split; [done|]. split; [done|].
    split; [by apply (file_raise _ _ _ _ _ _ _ formats_httpie)|].
    split; [by apply (file_raise _ _ _ _ _ _ _ formats_raw_request)|].
    split; [by apply (clip_raise _ _ _ _ _ _ formats_httpie)|].
    by apply (clip_raise _ _ _ _ _ _ formats_raw_request).
  - intros Hp.
    pose proof (cleanup_response_absent f s Hp) as Hclean.
    assert (raw_response f s = (Raise NoResponseError, s)) as Hraw.
    { unfold raw_response. by rewrite (bind_raise _ _ _ _ _ Hclean). }
    assert (as_bytes (raw_response f) s = (Raise NoResponseError, s)) as Hr.
    { unfold as_bytes. by rewrite (bind_raise _ _ _ _ _ Hraw). }
    split; [done|]. split; [done|].
    split; [by apply (file_raise _ _ _ _ _ _ _ formats_raw_response)|].
    by apply (clip_raise _ _ _ _ _ _ formats_raw_response).
Qed.

Lemma delitem_delitem (key key' : string) (h : Headers.t) :
  Headers.delitem key (Headers.delitem key' h)
  = List.filter
      (fun field => negb (Headers.matches key field)
                    && negb (Headers.matches key' field)) h.
Proof.
  unfold Headers.delitem. induction h as [|field h IH]; simpl; [done|].
  destruct (Headers.matches key' field); simpl.
  - by rewrite andb_false_r.
  - rewrite andb_true_r. destruct (Headers.matches key field); simpl;
      by rewrite IH.
Qed.

(** X4. [cleanup_request] changes nothing but the headers that the two
    removals name: the sanitised copy has the method and the URL of the
    request and the body that the decode pass left, and its headers are
    those the decode pass left, in their order and with their duplicates,
    without the entries named ":authority" and, for a GET request whose
    content-length reads "0", without those named "content-length". *)
Theorem cleanup_request_removes_two_names_only f (l : ref) (r : Request)
    rs ps lg w :
  request f = Some l -> rs !! l = Some r ->
  exists q,
    cleanup_request f (mkState rs ps lg w)
    = (Ok (length rs), mkState (rs ++ [q]) ps lg w)
    /\ method q = method r
    /\ url q = url r
    /\ content q = snd (decode_lenient (headers r) (content r))
    /\ headers q
       = List.filter
           (kept_by_cleanup
              (String.eqb (method r) "GET"
               && option_eqb
                    (Headers.get "content-length"
                       (fst (decode_lenient (headers r) (content r))))
                    "0"))
           (fst (decode_lenient (headers r) (content r))).
Proof.
  intros Hf Hl. exists (sanitized_request r).
  split; [by apply (cleanup_request_run _ l)|].
  unfold sanitized_request. simpl. repeat split.
  destruct (String.eqb (method r) "GET" && _).
  - rewrite delitem_delitem. apply filter_ext. intros field.
    unfold kept_by_cleanup. done.
  - unfold Headers.delitem. apply filter_ext. intros field.
    unfold kept_by_cleanup. simpl. by rewrite andb_true_r.
Qed.

(** X5. The text of [curl_command] for a flow with a request, read off
    the sanitised request: "curl ", then for each header entry, in order
    and duplicates included, its -H flag (after "--compressed " when the
    name is accept-encoding), then -X and the method unless it is GET, the
    quoted URL, and, exactly when the body is not empty, the --data-binary
    clause with the body escaped with escape_single_quotes set. *)
Theorem curl_command_text f (l : ref) (r : Request) rs ps lg w :
  request f = Some l -> rs !! l = Some r ->
  let q := sanitized_request r in
  fst (curl_command f (mkState rs ps lg w))
  = Ok ("curl " +:+ flatten (List.map curl_header_flag (headers q))
        +:+ (if String.eqb (method q) "GET" then EmptyString
             else "-X " +:+ method q +:+ " ")
        +:+ "'" +:+ url q +:+ "'"
        +:+ match content q with
            | Some (b :: body) =>
                " --data-binary '"
                +:+ bytes_to_escaped_str (b :: body) true +:+ "'"
            | _ => EmptyString
            end).
Proof.
  intros Hf Hl q.
  rewrite (curl_command_run _ _ _ _ _ _ _ Hf Hl). fold q. cbn [fst].
  by destruct (content q) as [[|b body]|].
Qed.

(** X6. The text of [httpie_command] for a flow with a request: "http",
    the method and the URL, then each header entry, in order and
    duplicates included, between single quotes, and, exactly when the body
    is not empty, the <<< clause with the escaped body. *)
Theorem httpie_command_text f (l : ref) (r : Request) rs ps lg w :
  request f = Some l -> rs !! l = Some r ->
  let q := sanitized_request r in
  fst (httpie_command f (mkState rs ps lg w))
  = Ok ("http " +:+ method q +:+ " " +:+ url q
        +:+ flatten (List.map httpie_header_item (headers q))
        +:+ match content q with
            | Some (b :: body) =>
                " <<< '" +:+ bytes_to_escaped_str (b :: body) true +:+ "'"
            | _ => EmptyString
            end).
Proof.
  intros Hf Hl q.
  rewrite (httpie_command_run _ _ _ _ _ _ _ Hf Hl). fold q. cbn [fst].
  by destruct (content q) as [[|b body]|].
Qed.

Lemma delitem_idempotent (key : string) (h : Headers.t) :
  Headers.delitem key (Headers.delitem key h) = Headers.delitem key h.
Proof.
  apply delitem_absent, contains_entries, entries_delitem_same.
Qed.

Lemma get_delitem_same (key : string) (h : Headers.t) :
  Headers.get key (Headers.delitem key h) = None.
Proof. unfold Headers.get. by rewrite get_all_delitem_same. Qed.

(** X13. Sanitising is idempotent: when the decode pass leaves the
    sanitised copy as it is, [cleanup_request] on a flow whose request is
    that copy returns a new copy in the same state, with nothing more to
    remove. *)
Theorem cleanup_request_idempotent f (l : ref) (r : Request) rs ps lg w :
  request f = Some l -> rs !! l = Some r ->
  decode_lenient (headers (sanitized_request r)) (content (sanitized_request r))
  = (headers (sanitized_request r), content (sanitized_request r)) ->
  exists q,
    cleanup_request f (mkState rs ps lg w)
    = (Ok (length rs), mkState (rs ++ [q]) ps lg w)
    /\ cleanup_request (mkFlow (Some (length rs)) (response f))
         (mkState (rs ++ [q]) ps lg w)
       = (Ok (S (length rs)), mkState (rs ++ [q; q]) ps lg w).
Proof.
  intros Hf Hl Hdec. exists (sanitized_request r).
  split; [by apply (cleanup_request_run _ l)|].
  rewrite (cleanup_request_run (mkFlow (Some (length rs)) (response f))
             (length rs) (sanitized_request r) _ _ _ _ eq_refl
             (lookup_last _ _)).
  rewrite length_app, Nat.add_comm, <- app_assoc. simpl.
  do 3 f_equal.
  set (q := sanitized_request r) in *.
  assert (decoded_request q = q) as Hq.
  { unfold decoded_request. rewrite Hdec. by destruct q. }
  unfold sanitized_request at 1. rewrite Hq.
  assert (headers q
          = Headers.delitem ":authority"
              (if String.eqb (method r) "GET"
                  && option_eqb
                       (Headers.get "content-length"
                          (headers (decoded_request r))) "0"
               then Headers.delitem "content-length"
                      (headers (decoded_request r))
               else headers (decoded_request r))) as Hheaders by done.
  assert (method q = method r) as Hmethod by done.
  assert (Headers.delitem ":authority" (headers q) = headers q) as Hauth.
  { rewrite Hheaders. apply delitem_idempotent. }
  assert (String.eqb (method q) "GET"
          && option_eqb (Headers.get "content-length" (headers q)) "0"
          = false) as ->.
  { rewrite Hmethod, Hheaders.
    destruct (String.eqb (method r) "GET"
              && option_eqb
                   (Headers.get "content-length" (headers (decoded_request r)))
                   "0") eqn:Hcond.
    - rewrite (get_of_entries "content-length" _
                 (Headers.delitem "content-length"
                    (headers (decoded_request r))))
        by (by apply entries_delitem_other).
      rewrite get_delitem_same. apply andb_false_r.
    - rewrite (get_of_entries "content-length" _
                 (headers (decoded_request r)))
        by (by apply entries_delitem_other).
      done. }
  rewrite Hauth. by destruct q.
Qed.

End Formatters.

(** ** The file and the clipboard *)

Section Sinks.

Context `{E : Externals}.

Implicit Types (f : Flow) (s : State E) (v : Output).

Lemma world_op_ok (op : World -> option string * World) (mk : string -> exn)
    s (w : World) :
  op (world s) = (None, w) -> world_op op mk s = (Ok tt, set_world w s).
Proof. unfold world_op. by intros ->. Qed.

Lemma world_op_fails (op : World -> option string * World)
    (mk : string -> exn) s (msg : string) (w : World) :
  op (world s) = (Some msg, w) ->
  world_op op mk s = (Raise (mk msg), set_world w s).
Proof. unfold world_op. by intros ->. Qed.

(** The world after the [with] block of [file], when the file could be
    opened, is the one its close returned. *)
Lemma with_open_wb_closes (path : string) (body : M E unit) s (w1 : World) :
  open_wb path (world s) = (None, w1) ->
  exists w2, world (snd (with_open_wb path body s)) = snd (fp_close path w2).
Proof.
  intros Hopen. unfold with_open_wb.
  rewrite (bind_ok _ _ _ _ _ (world_op_ok _ IOError _ _ Hopen)).
  destruct (body (set_world w1 s)) as [[[]|e] s2].
  - exists (world s2). unfold world_op.
    by destruct (fp_close path (world s2)) as [[msg|] w3].
  - exists (world s2). unfold world_op.
    by destruct (fp_close path (world s2)) as [[msg|] w3].
Qed.

(** X7. When the formatter returns and the path can be opened, written
    and closed, [file] writes the bytes of a raw format as they are and
    the text of a command format encoded as UTF-8, in this order: open,
    write, close; it returns normally and logs nothing. *)
Theorem file_writes_the_payload (fmt : string) (func : Flow -> M E Output)
    f (path : string) s v s1 (b : bytes) (w1 w2 w3 : World) :
  formats !! fmt = Some func ->
  func f s = (Ok v, s1) ->
  payload v = Some b ->
  open_wb path (world s1) = (None, w1) ->
  fp_write path b w1 = (None, w2) ->
  fp_close path w2 = (None, w3) ->
  file fmt f path s = (Ok tt, set_world w3 s1).
Proof.
  intros Hfmt Hrun Hpayload Hopen Hwrite Hclose.
  rewrite (file_run _ _ _ path _ _ _ Hfmt Hrun).
  unfold try_except, write_file, with_open_wb.
  rewrite (bind_ok _ _ _ _ _ (world_op_ok _ IOError _ _ Hopen)).
  assert (match v with
          | Bytes b0 => world_op (fp_write path b0) IOError
          | Str text =>
              match encode_utf8 text with
              | Some b0 => world_op (fp_write path b0) IOError
              | None => raise UnicodeEncodeError
              end
          end (set_world w1 s1)
          = (Ok tt, set_world w2 (set_world w1 s1))) as ->.
  { destruct v as [text|b0]; simpl in Hpayload.
    - rewrite Hpayload. by apply world_op_ok.
    - injection Hpayload as ->. by apply world_op_ok. }
  rewrite (world_op_ok (fp_close path) IOError _ w3) by done.
  by destruct s1.
Qed.

(** X8. When the text of a command format cannot be encoded as UTF-8,
    [file] has opened the path before it finds out: it closes it again,
    writes nothing, logs nothing, and the UnicodeEncodeError, which is no
    IOError, reaches the caller. *)
Theorem file_unencodable_text_raises (fmt : string)
    (func : Flow -> M E Output) f (path : string) s v s1 (w1 w2 : World) :
  formats !! fmt = Some func ->
  func f s = (Ok v, s1) ->
  payload v = None ->
  open_wb path (world s1) = (None, w1) ->
  fp_close path w1 = (None, w2) ->
  file fmt f path s = (Raise UnicodeEncodeError, set_world w2 s1).
Proof.
  intros Hfmt Hrun Hpayload Hopen Hclose.
  rewrite (file_run _ _ _ path _ _ _ Hfmt Hrun).
  unfold try_except, write_file, with_open_wb.
  rewrite (bind_ok _ _ _ _ _ (world_op_ok _ IOError _ _ Hopen)).
  destruct v as [text|b0]; simpl in Hpayload; [|done].
  rewrite Hpayload. unfold raise.
  rewrite (world_op_ok (fp_close path) IOError _ w2) by done.
  by destruct s1.
Qed.

(** X9. When the path cannot be opened, [file] neither writes nor closes
    anything: it logs the message of the IOError and returns normally, the
    world being as the failed open left it. *)
Theorem file_open_failure_is_logged (fmt : string)
    (func : Flow -> M E Output) f (path : string) s v s1
    (msg : string) (w1 : World) :
  formats !! fmt = Some func ->
  func f s = (Ok v, s1) ->
  open_wb path (world s1) = (Some msg, w1) ->
  file fmt f path s = (Ok tt, set_log (log s1 ++ [msg]) (set_world w1 s1)).
Proof.
  intros Hfmt Hrun Hopen.
  rewrite (file_run _ _ _ path _ _ _ Hfmt Hrun).
  unfold try_except, write_file, with_open_wb.
  by rewrite (bind_raise _ _ _ _ _ (world_op_fails _ IOError _ _ _ Hopen)).
Qed.

(** X10. A path that [file] has opened is closed on every way out: once
    the open has succeeded, whether the write succeeds or fails and whether
    the text can be encoded or not, the world [file] ends in is one that
    the close of the path returned. *)
Theorem file_closes_what_it_opens (fmt : string) (func : Flow -> M E Output)
    f (path : string) s v s1 (w1 : World) :
  formats !! fmt = Some func ->
  func f s = (Ok v, s1) ->
  open_wb path (world s1) = (None, w1) ->
  exists w2, world (snd (file fmt f path s)) = snd (fp_close path w2).
Proof.
  intros Hfmt Hrun Hopen.
  rewrite (file_run _ _ _ path _ _ _ Hfmt Hrun).
  unfold try_except, write_file.
  match goal with
  | |- context [with_open_wb path ?body s1] =>
      destruct (with_open_wb_closes path body s1 w1 Hopen) as [w2 Hw2];
      exists w2; rewrite <- Hw2;
      destruct (with_open_wb path body s1) as [[[]|e] s2]; [done|]
  end.
  by destruct e.
Qed.

(** X11. When the formatter returns and the clipboard takes the copy,
    [clip] has copied the text of a command format as it is and the bytes
    of a raw format through always_str; it returns normally and logs
    nothing. *)
Theorem clip_copies_the_text (fmt : string) (func : Flow -> M E Output)
    f s v s1 (w1 : World) :
  formats !! fmt = Some func ->
  func f s = (Ok v, s1) ->
  pyperclip_copy
    match v with
    | Str text => text
    | Bytes b => always_str b
    end (world s1) = (None, w1) ->
  clip fmt f s = (Ok tt, set_world w1 s1).
Proof.
  intros Hfmt Hrun Hcopy.
  rewrite (clip_run _ _ _ _ _ _ Hfmt Hrun).
  unfold try_except.
  by rewrite (world_op_ok (pyperclip_copy (always_str_of v))
                PyperclipException s1 w1).
Qed.

End Sinks.

(** ** These properties on the examples *)

Section MoreOnExamples.

Import Examples.

Lemma missing_side_fails_witness :
  httpie_command neither_side (Demo.state_of [] [] Demo.empty_world)
  = (Raise NoRequestError, Demo.state_of [] [] Demo.empty_world)
  /\ raw_response neither_side (Demo.state_of [] [] Demo.empty_world)
     = (Raise NoResponseError, Demo.state_of [] [] Demo.empty_world).
Proof.
  pose proof (missing_side_fails (E := Demo.externals) neither_side
                (Demo.state_of [] [] Demo.empty_world) "/tmp/flow")
    as [Hq Hp].
  split.
  - exact (proj1 (Hq eq_refl)).
  - exact (proj1 (proj2 (Hp eq_refl))).
Defined.

Lemma cleanup_request_removes_two_names_only_witness :
  exists q,
    cleanup_request request_only
      (Demo.state_of [authority_request] [] Demo.empty_world)
    = (Ok 1, Demo.state_of [authority_request; q] [] Demo.empty_world)
    /\ headers q = [].
Proof.
  destruct (cleanup_request_removes_two_names_only (E := Demo.externals)
              request_only 0 authority_request [authority_request] [] []
              Demo.empty_world eq_refl eq_refl)
    as (q & Hrun & _ & _ & _ & Hheaders).
  exists q. exact (conj Hrun Hheaders).
Defined.

Lemma curl_command_text_witness :
  fst (curl_command request_only
         (Demo.state_of [post_with_body] [] Demo.empty_world))
  = Ok "curl -H 'Cookie:a=1' -H 'Cookie:b=2' -X POST 'http://example.com/form' --data-binary 'x=1'".
Proof.
  exact (curl_command_text (E := Demo.externals) request_only 0
           post_with_body [post_with_body] [] [] Demo.empty_world
           eq_refl eq_refl).
Defined.

Lemma httpie_command_text_witness :
  fst (httpie_command request_only
         (Demo.state_of [post_with_body] [] Demo.empty_world))
  = Ok "http POST http://example.com/form 'Cookie:a=1' 'Cookie:b=2' <<< 'x=1'".
Proof.
  exact (httpie_command_text (E := Demo.externals) request_only 0
           post_with_body [post_with_body] [] [] Demo.empty_world
           eq_refl eq_refl).
Defined.

Lemma cleanup_request_idempotent_witness :
  exists q,
    cleanup_request request_only
      (Demo.state_of [authority_request] [] Demo.empty_world)
    = (Ok 1, Demo.state_of [authority_request; q] [] Demo.empty_world)
    /\ cleanup_request (mkFlow (Some 1) None)
         (Demo.state_of [authority_request; q] [] Demo.empty_world)
       = (Ok 2, Demo.state_of [authority_request; q; q] [] Demo.empty_world).
Proof.
  exact (cleanup_request_idempotent (E := Demo.externals) request_only 0
           authority_request [authority_request] [] [] Demo.empty_world
           eq_refl eq_refl eq_refl).
Defined.

Lemma formatter_error_reaches_the_caller_witness :
  file "curl" neither_side "/tmp/flow" (Demo.state_of [] [] Demo.empty_world)
  = (Raise NoRequestError, Demo.state_of [] [] Demo.empty_world)
  /\ clip "curl" neither_side (Demo.state_of [] [] Demo.empty_world)
     = (Raise NoRequestError, Demo.state_of [] [] Demo.empty_world).
Proof.
  pose proof (formatter_error_reaches_the_caller (E := Demo.externals)
                "curl" (fun f => as_str (curl_command f)) neither_side
                "/tmp/flow" (Demo.state_of [] [] Demo.empty_world)
                NoRequestError (Demo.state_of [] [] Demo.empty_world)
                formats_curl eq_refl) as (Hfile & Hclip & _).
  exact (conj Hfile Hclip).
Defined.

Lemma file_writes_the_payload_witness :
  fst (file "raw_request" request_only "/tmp/flow"
         (Demo.state_of [example_request] [] Demo.empty_world))
  = Ok tt
  /\ Demo.files
       (world (snd (file "raw_request" request_only "/tmp/flow"
                      (Demo.state_of [example_request] [] Demo.empty_world))))
     = [("/tmp/flow", Demo.assemble_request example_request)].
Proof.
  pose proof (file_writes_the_payload (E := Demo.externals) "raw_request"
                (fun f => as_bytes (raw_request f)) request_only "/tmp/flow"
                (Demo.state_of [example_request] [] Demo.empty_world)
                (Bytes (Demo.assemble_request example_request))
                (Demo.state_of [example_request; example_request] []
                   Demo.empty_world)
                (Demo.assemble_request example_request)
                (Demo.store "/tmp/flow" [] Demo.empty_world)
                (Demo.store "/tmp/flow" (Demo.assemble_request example_request)
                   Demo.empty_world)
                (Demo.store "/tmp/flow" (Demo.assemble_request example_request)
                   Demo.empty_world)
                formats_raw_request eq_refl eq_refl eq_refl eq_refl eq_refl)
    as Hfile.
  split.
  - exact (f_equal fst Hfile).
  - exact (f_equal
           (fun out : outcome unit * State Demo.externals =>
              Demo.files (world (snd out))) Hfile).
Defined.

Lemma file_unencodable_text_raises_witness :
  fst (file (E := Demo.strict) "curl" request_only "/tmp/flow"
         (mkState (E := Demo.strict) [binary_header_request] [] []
            Demo.empty_world))
  = Raise UnicodeEncodeError
  /\ log (snd (file (E := Demo.strict) "curl" request_only "/tmp/flow"
                 (mkState (E := Demo.strict) [binary_header_request] [] []
                    Demo.empty_world)))
     = [].
Proof.
  pose proof (file_unencodable_text_raises (E := Demo.strict) "curl"
                (fun f => as_str (curl_command f)) request_only "/tmp/flow"
                (mkState (E := Demo.strict) [binary_header_request] [] []
                   Demo.empty_world)
                (Str ("curl -H 'X-Bin:" +:+ String "255" EmptyString
                      +:+ "' 'http://example.com/'"))
                (mkState (E := Demo.strict)
                   [binary_header_request; binary_header_request] [] []
                   Demo.empty_world)
                (Demo.store "/tmp/flow" [] Demo.empty_world)
                (Demo.store "/tmp/flow" [] Demo.empty_world)
                formats_curl eq_refl eq_refl eq_refl eq_refl)
    as Hfile.
  split.
  - exact (f_equal fst Hfile).
  - exact (f_equal
           (fun out : outcome unit * State Demo.strict => log (snd out))
           Hfile).
Defined.

Lemma file_open_failure_is_logged_witness :
  file "raw_request" request_only "/proc/version"
    (Demo.state_of [example_request] [] Demo.empty_world)
  = (Ok tt,
     mkState (E := Demo.externals) [example_request; example_request] []
       ["[Errno 13] Permission denied: '/proc/version'"] Demo.empty_world).
Proof.
  exact (file_open_failure_is_logged (E := Demo.externals) "raw_request"
           (fun f => as_bytes (raw_request f)) request_only "/proc/version"
           (Demo.state_of [example_request] [] Demo.empty_world)
           (Bytes (Demo.assemble_request example_request))
           (Demo.state_of [example_request; example_request] []
              Demo.empty_world)
           "[Errno 13] Permission denied: '/proc/version'" Demo.empty_world
           formats_raw_request eq_refl eq_refl).
Defined.

Lemma file_closes_what_it_opens_witness :
  exists w2,
    world (snd (file "curl" request_only "/tmp/flow"
                  (Demo.state_of [example_request] [] Demo.empty_world)))
    = snd (Demo.fp_close "/tmp/flow" w2).
Proof.
  exact (file_closes_what_it_opens (E := Demo.externals) "curl"
           (fun f => as_str (curl_command f)) request_only "/tmp/flow"
           (Demo.state_of [example_request] [] Demo.empty_world)
           (Str "curl -H 'Host:example.com' -H 'Accept-Encoding:gzip' 'http://example.com/'")
           (Demo.state_of [example_request; example_request] []
              Demo.empty_world)
           (Demo.store "/tmp/flow" [] Demo.empty_world)
           formats_curl eq_refl eq_refl).
Defined.

Lemma clip_copies_the_text_witness :
  fst (clip "httpie" request_only
         (Demo.state_of [example_request] [] Demo.empty_world))
  = Ok tt
  /\ Demo.clipboard
       (world (snd (clip "httpie" request_only
                      (Demo.state_of [example_request] [] Demo.empty_world))))
     = Some "http GET http://example.com/ 'Host:example.com' 'Accept-Encoding:gzip'".
Proof.
  pose proof (clip_copies_the_text (E := Demo.externals) "httpie"
                (fun f => as_str (httpie_command f)) request_only
                (Demo.state_of [example_request] [] Demo.empty_world)
                (Str "http GET http://example.com/ 'Host:example.com' 'Accept-Encoding:gzip'")
                (Demo.state_of [example_request; example_request] []
                   Demo.empty_world)
                (Demo.mkWorld [] ["/proc/version"]
                   (Some "http GET http://example.com/ 'Host:example.com' 'Accept-Encoding:gzip'"))
                formats_httpie eq_refl eq_refl) as Hclip.
  split.
  - exact (f_equal fst Hclip).
  - exact (f_equal
           (fun out : outcome unit * State Demo.externals =>
              Demo.clipboard (world (snd out))) Hclip).
Defined.

End MoreOnExamples.
